(** * eyetribe: the EyeTribe gaze server, embedded in Rocq

    A shallow embedding of package [eyetribe] (the streaming client of the
    EyeTribe device server): the frame model, the status handshake of
    [CreateServerConnection], the ingestion loop of [StartPullFrameTask],
    the bounded frame list of [AddOneFrame], the fixation detector
    [GetFixationDataList], the heat-map renderer [CreateHeatMapImage] and
    the two region checks [ServeEyeTrackCheck] and
    [ServeEyeTrackCheckFixation].

    Conventions.
    - Go's [float64] is Rocq's primitive binary64 [float]; every float
      operation of the source is the same IEEE operation here.
    - Go's [int], [int64] and [time.Duration] are [Z] with the 64-bit
      wrap-around written out ([wrap64]).
    - [time.Time] is an instant in nanoseconds ([Z]); [time.Now()] is an
      argument of the function that reads the clock.
    - A Go pointer that may be nil is an [option]; a Go map is a [gmap].
    - A function that can return an error or panic returns a [Res].
    - What the library, the machine or the network decide (whether a
      canvas of a given size is allocated, what the brush file decodes
      to, what the server answers) is an argument of the function that
      asks. *)

From Stdlib Require Import ZArith List String Bool Lia.
From Stdlib Require Import Floats.PrimFloat Floats.SpecFloat Floats.FloatOps.
From stdpp Require Import base option gmap strings list sorting.

Local Open Scope Z_scope.

(* ===================================================================== *)
(** * The Go runtime pieces the package relies on                         *)
(* ===================================================================== *)

Module Go.

(** ** 64-bit integers *)

Definition int64_min : Z := - 2 ^ 63.
Definition int64_max : Z := 2 ^ 63 - 1.

(** Two's complement wrap-around of [int], [int64], [time.Duration]. *)
Definition wrap64 (z : Z) : Z := (z + 2 ^ 63) mod 2 ^ 64 - 2 ^ 63.

Definition int_mul (a b : Z) : Z := wrap64 (a * b).
Definition int_neg (a : Z) : Z := wrap64 (- a).

(** Go's [/] on integers truncates toward zero. *)
Definition int_quot (a b : Z) : Z := wrap64 (Z.quot a b).

(** ** float64 *)

(** [int64(f)]: truncation toward zero.  When the value does not fit
    (or [f] is NaN or infinite) Go leaves the result to the
    implementation; amd64 yields the smallest int64, which is what is
    modelled. *)
Definition int64_of_float64 (f : float) : Z :=
  match Prim2SF f with
  | S754_zero _ => 0
  | S754_finite s m e =>
      let mag := if 0 <=? e then Z.pos m * 2 ^ e else Z.pos m / 2 ^ (- e) in
      let v := if s then - mag else mag in
      if (int64_min <=? v) && (v <=? int64_max) then v else int64_min
  | S754_infinity _ | S754_nan => int64_min
  end.

(** [float64(i)] for an int64 [i]: round to nearest, ties to even. *)
Definition float64_of_int64 (i : Z) : float :=
  SF2Prim (binary_normalize prec emax i 0 false).

(** Go's comparison operators on float64 (all false on NaN). *)
Definition fle (a b : float) : bool := PrimFloat.leb a b.
Definition flt (a b : float) : bool := PrimFloat.ltb a b.
Definition fge (a b : float) : bool := PrimFloat.leb b a.

(** ** package time *)

(** An instant, in nanoseconds. *)
Definition Time : Type := Z.
(** A [time.Duration]: an int64 count of nanoseconds. *)
Definition Duration : Type := Z.

Definition Millisecond : Duration := 1000000.

(** [t.Add(d)]. *)
Definition Time_Add (t : Time) (d : Duration) : Time := t + d.

(** [t.Sub(u)]: the difference, saturated to the range of Duration. *)
Definition Time_Sub (t u : Time) : Duration :=
  let d := t - u in
  if d <? int64_min then int64_min
  else if int64_max <? d then int64_max
  else d.

End Go.

Import Go.

(* ===================================================================== *)
(** * Results: a value, a returned [error], or a panic                    *)
(* ===================================================================== *)

(** The [error] values the package returns. *)
Inductive error : Type :=
| ErrResolve            (* net.ResolveTCPAddr failed *)
| ErrDial               (* net.DialTCP failed *)
| ErrEncode             (* Encoder.Encode failed *)
| ErrDecode             (* Decoder.Decode failed *)
| ErrStatusNot200       (* server response code is not 200 *)
| ErrNoIsCalibrated     (* server response has no iscalibrated field *)
| ErrNoField (name : string)          (* value has no ... field *)
| ErrInvalidHeartbeat (interval : Z)  (* heartbeatinterval is invalid *)
| ErrNotCalibrated      (* Server is not calibrated *)
| ErrBrush.             (* heatmap_brush.png could not be opened or decoded *)

(** The run-time panics the package can raise. *)
Inductive panic : Type :=
| NilDereference        (* nil pointer dereference *)
| TypeAssertion         (* x.(T) on a value that is not a T *)
| DivideByZero
| CanvasRefused.        (* image.NewRGBA on a rectangle it cannot allocate *)

Inductive Res (A : Type) : Type :=
| Ok (a : A)
| Err (e : error)
| Panic (p : panic).

Arguments Ok {A} a.
Arguments Err {A} e.
Arguments Panic {A} p.

Definition bind {A B : Type} (r : Res A) (k : A -> Res B) : Res B :=
  match r with
  | Ok a => k a
  | Err e => Err e
  | Panic p => Panic p
  end.

Notation "x <- r ;; k" := (bind r (fun x => k))
  (at level 100, r at next level, right associativity).

Definition is_Panic {A : Type} (r : Res A) : bool :=
  match r with Panic _ => true | _ => false end.

(* ===================================================================== *)
(** * The data model                                                      *)
(* ===================================================================== *)

Record Point : Type := { X : float; Y : float }.

Record EyeData : Type := {
  ERaw : option Point;
  EAvg : option Point;
  Psize : float;
  Pcenter : option Point
}.

(** One frame of eye-tracking data.  [GoTime] is stamped on arrival. *)
Record Frame : Type := {
  Timestamp : string;
  FTime : float;
  Fix : bool;
  State : Z;
  Raw : option Point;
  Avg : option Point;
  LeftEye : option EyeData;
  RightEye : option EyeData;
  GoTime : Time
}.

(** [frame.GoTime = t]. *)
Definition set_GoTime (frame : Frame) (t : Time) : Frame :=
  {| Timestamp := Timestamp frame; FTime := FTime frame; Fix := Fix frame;
     State := State frame; Raw := Raw frame; Avg := Avg frame;
     LeftEye := LeftEye frame; RightEye := RightEye frame; GoTime := t |}.

(** A message that carries one frame. *)
Record OneFrameMessage : Type := {
  Category : string;
  Request : string;
  StatusCode : Z;
  Values : gmap string (option Frame)
}.

(** A target rectangle of the region check. *)
Record EyeTrackCheckPoint : Type := {
  CX : float;
  CY : float;
  Width : float;
  Height : float;
  Name : string
}.

Record EyeTrackCheckConfig : Type := {
  Fixation : option (gmap string Z);
  TargetList : list (option EyeTrackCheckPoint)
}.

(** A decoded PNG; only its identity matters to the renderer's caller. *)
Inductive Image : Type := PngImage (file : string).

(** The fields of [EyeTribeConnection] the modelled methods read or write.
    [FrameList] is the [container/list] of [*Frame], front first.
    [HeartbeatTask] is the tick interval of the running heartbeat task. *)
Record EyeTribeConnection : Type := {
  ScreenWidth : Z;
  ScreenHeight : Z;
  HeartbeatTimeoutMillisecond : Z;
  FrameList : list (option Frame);
  HeartbeatTask : option Duration;
  HeatMapDrawImage : option Image;
  CheckConfig : EyeTrackCheckConfig
}.

Definition set_FrameList (c : EyeTribeConnection) (l : list (option Frame))
  : EyeTribeConnection :=
  {| ScreenWidth := ScreenWidth c; ScreenHeight := ScreenHeight c;
     HeartbeatTimeoutMillisecond := HeartbeatTimeoutMillisecond c;
     FrameList := l; HeartbeatTask := HeartbeatTask c;
     HeatMapDrawImage := HeatMapDrawImage c; CheckConfig := CheckConfig c |}.

(** A detected fixation: a coordinate and a time. *)
Record FixateData : Type := {
  FX : float;
  FY : float;
  FGoTime : Time
}.

(* ===================================================================== *)
(** * The frame list                                                      *)
(* ===================================================================== *)

(** [c.AddOneFrame(frame, numFrames)].  A nil receiver is accepted and
    left alone.  [FrameList.Remove(FrameList.Front())] panics on an empty
    list, where [Front()] is nil. *)
Definition AddOneFrame (c : option EyeTribeConnection) (frame : option Frame)
    (numFrames : Z) : Res (option EyeTribeConnection) :=
  match c with
  | None => Ok None
  | Some c =>
      if numFrames <=? Z.of_nat (length (FrameList c)) then
        match FrameList c with
        | [] => Panic NilDereference
        | _ :: rest => Ok (Some (set_FrameList c (rest ++ [frame])))
        end
      else Ok (Some (set_FrameList c (FrameList c ++ [frame])))
  end.

(** A run of [AddOneFrame] calls on one connection, oldest frame first. *)
Fixpoint add_frames (c : EyeTribeConnection) (frames : list (option Frame))
    (numFrames : Z) : Res EyeTribeConnection :=
  match frames with
  | [] => Ok c
  | frame :: more =>
      r <- AddOneFrame (Some c) frame numFrames ;;
      match r with
      | Some c' => add_frames c' more numFrames
      | None => Ok c
      end
  end.


(* ===================================================================== *)
(** * The ingestion task                                                  *)
(* ===================================================================== *)

(** [c.PullOneFrame()].  [decoded] is what [Decoder.Decode(&response)]
    delivered ([None]: a decode or connection error) and [now] is the
    clock when the frame is stamped.  A message that is not a frame gives
    the nil frame and the nil error.  [frame.GoTime = ...] dereferences
    the pointer stored under the key, which is nil for a JSON null.  The
    write to the log file does not touch the connection's state. *)
Definition PullOneFrame (decoded : option OneFrameMessage) (now : Time)
  : Res (option Frame) :=
  match decoded with
  | None => Err ErrDecode
  | Some response =>
      if negb (StatusCode response =? 200) then Ok None
      else if String.eqb (Category response) "heartbeat" then Ok None
      else
        match Values response !! "frame"%string with
        | None => Ok None
        | Some None => Panic NilDereference
        | Some (Some frame) => Ok (Some (set_GoTime frame now))
        end
  end.

(** What one turn of the task's [select] sees: the quit signal, or one
    decode on the connection together with the clock at that moment. *)
Inductive PullEvent : Type :=
| QuitSignal
| Incoming (decoded : option OneFrameMessage) (now : Time).

(** One iteration of the loop of [StartPullFrameTask]: the new value of
    [quitFlug] and the connection. *)
Definition pull_iteration (c : EyeTribeConnection) (numFrames : Z)
    (ev : PullEvent) : Res (bool * EyeTribeConnection) :=
  match ev with
  | QuitSignal => Ok (true, c)
  | Incoming decoded now =>
      match PullOneFrame decoded now with
      | Err _ => Ok (true, c)
      | Panic p => Panic p
      | Ok frame =>
          r <- AddOneFrame (Some c) frame numFrames ;;
          match r with
          | Some c' => Ok (false, c')
          | None => Ok (false, c)
          end
      end
  end.

(** The loop [for (quitFlug != true) { select ... }] over the events the
    task meets; [false] in the result means the task is still running. *)
Fixpoint pull_loop (c : EyeTribeConnection) (numFrames : Z)
    (events : list PullEvent) : Res (bool * EyeTribeConnection) :=
  match events with
  | [] => Ok (false, c)
  | ev :: more =>
      r <- pull_iteration c numFrames ev ;;
      if fst r then Ok r else pull_loop (snd r) numFrames more
  end.

(** [c.StartPullFrameTask(second)].  [sent] tells whether the push-mode
    request could be encoded; when it could not, no task is started. *)
Definition StartPullFrameTask (c : EyeTribeConnection) (second : Z)
    (sent : bool) (events : list PullEvent) : Res (bool * EyeTribeConnection) :=
  if negb sent then Ok (true, c)
  else if HeartbeatTimeoutMillisecond c =? 0 then Panic DivideByZero
  else
    let numFrames :=
      int_quot (int_mul second 1000) (HeartbeatTimeoutMillisecond c) in
    pull_loop c numFrames events.

(* ===================================================================== *)
(** * The fixation detector                                               *)
(* ===================================================================== *)

(** The local variables of [GetFixationDataList] that the loop carries. *)
Record Fixating : Type := {
  PrevX : float;
  PrevY : float;
  PrevTime : Time;
  CurrentTime : Time;
  check_time : Time;
  AverageX : float;
  AverageY : float;
  fixate_count : Z;
  fixate_count_sum : Z;
  result : list FixateData
}.

(** The sentinel test [frame.Avg.X <= 0.0 && frame.Avg.Y <= 0.0]. *)
Definition outlier (p : Point) : bool := fle (X p) 0 && fle (Y p) 0.

(** The test [distance2 < (xx * xx + yy * yy)] on the point [(x, y)]. *)
Definition moved_away (distance2 : float) (st : Fixating) (x y : float) : bool :=
  let xx := PrimFloat.sub (PrevX st) x in
  let yy := PrimFloat.sub (PrevY st) y in
  flt distance2 (PrimFloat.add (PrimFloat.mul xx xx) (PrimFloat.mul yy yy)).

(** The branch taken when the gaze went somewhere else. *)
Definition fixation_break (min_msec : Z) (st : Fixating) (x y : float) (t : Time)
  : Fixating :=
  let result' :=
    if (Time_Sub (check_time st) t <? 0) && (1 <? fixate_count st)
    then result st ++ [ {| FX := AverageX st; FY := AverageY st;
                           FGoTime := PrevTime st |} ]
    else result st in
  {| PrevX := x; PrevY := y; PrevTime := t;
     CurrentTime := CurrentTime st;
     check_time := Time_Add t (int_mul Millisecond min_msec);
     AverageX := x; AverageY := y;
     fixate_count := 0;
     fixate_count_sum := fixate_count_sum st;
     result := result' |}.

(** The branch taken when the gaze stayed close. *)
Definition fixation_stay (st : Fixating) (t : Time) : Fixating :=
  let count := wrap64 (fixate_count st + 1) in
  let alpha := PrimFloat.div 1 (PrimFloat.add 1 (float64_of_int64 count)) in
  let a := PrimFloat.sub 1 alpha in
  let b := alpha in
  {| PrevX := PrevX st; PrevY := PrevY st; PrevTime := PrevTime st;
     CurrentTime := t;
     check_time := check_time st;
     AverageX := PrimFloat.add (PrimFloat.mul a (AverageX st))
                               (PrimFloat.mul b (PrevX st));
     AverageY := PrimFloat.add (PrimFloat.mul a (AverageY st))
                               (PrimFloat.mul b (PrevY st));
     fixate_count := count;
     fixate_count_sum := wrap64 (fixate_count_sum st + 1);
     result := result st |}.

(** The body of the loop over the frame list, for one element. *)
Definition fixation_step (distance2 : float) (min_msec : Z) (st : Fixating)
    (f : option Frame) : Fixating :=
  match f with
  | None => st
  | Some frame =>
      match Avg frame with
      | None => st
      | Some p =>
          if outlier p then st
          else if moved_away distance2 st (X p) (Y p)
          then fixation_break min_msec st (X p) (Y p) (GoTime frame)
          else fixation_stay st (GoTime frame)
      end
  end.

(** The variables as they stand when the loop is entered.  [now0] and
    [now1] are the two readings of the clock. *)
Definition fixation_init (min_msec : Z) (frames : list (option Frame))
    (now0 now1 : Time) : Fixating :=
  let far := (-1000000)%float in
  let '(px, py, pt, ct) :=
    match frames with
    | Some front_frame :: _ =>
        match Avg front_frame with
        | Some p => (X p, Y p, GoTime front_frame, GoTime front_frame)
        | None => (far, far, GoTime front_frame, GoTime front_frame)
        end
    | _ => (far, far, now0, now1)
    end in
  {| PrevX := px; PrevY := py; PrevTime := pt; CurrentTime := ct;
     check_time := Time_Add pt (int_mul Millisecond min_msec);
     AverageX := px; AverageY := py;
     fixate_count := 0; fixate_count_sum := 0; result := [] |}.

(** What is appended after the loop. *)
Definition fixation_flush (st : Fixating) : list FixateData :=
  if (0 <? fixate_count st) && (Time_Sub (check_time st) (CurrentTime st) <? 0)
  then result st ++ [ {| FX := AverageX st; FY := AverageY st;
                         FGoTime := PrevTime st |} ]
  else result st.

(** The two parameters read from the configuration, with their defaults. *)
Definition max_distance_of (fixation : gmap string Z) : Z :=
  default 50 (fixation !! "max distance"%string).
Definition min_msec_of (fixation : gmap string Z) : Z :=
  default 100 (fixation !! "min msec"%string).

(** The detector proper, once the parameter map has been dereferenced. *)
Definition fixation_run (fixation : gmap string Z) (frames : list (option Frame))
    (now0 now1 : Time) : list FixateData :=
  let max_distance := max_distance_of fixation in
  let min_msec := min_msec_of fixation in
  let distance2 := float64_of_int64 (int_mul max_distance max_distance) in
  fixation_flush
    (fold_left (fixation_step distance2 min_msec) frames
       (fixation_init min_msec frames now0 now1)).

(** [c.GetFixationDataList()].  [*fixation] dereferences the pointer of
    the configuration, which is nil until a configuration with a
    fixation entry has been loaded. *)
Definition GetFixationDataList (c : EyeTribeConnection) (now0 now1 : Time)
  : Res (list FixateData) :=
  match Fixation (CheckConfig c) with
  | None => Panic NilDereference
  | Some fixation => Ok (fixation_run fixation (FrameList c) now0 now1)
  end.

(* ===================================================================== *)
(** * The heat-map renderer                                               *)
(* ===================================================================== *)

Record Rectangle : Type := { MinX : Z; MinY : Z; MaxX : Z; MaxY : Z }.

(** [image.Rect(x0, y0, x1, y1)]: the corners are put in order. *)
Definition image_Rect (x0 y0 x1 y1 : Z) : Rectangle :=
  let '(x0, x1) := if x1 <? x0 then (x1, x0) else (x0, x1) in
  let '(y0, y1) := if y1 <? y0 then (y1, y0) else (y0, y1) in
  {| MinX := x0; MinY := y0; MaxX := x1; MaxY := y1 |}.

(** One call of [draw.Draw] on the canvas. *)
Inductive DrawOp : Type :=
| ClearTransparent (r : Rectangle)       (* image.Transparent with draw.Src *)
| StampOver (r : Rectangle) (src : Image). (* a source image with draw.Over *)

(** The canvas, as its bounds and the draw calls made on it, in order; its
    pixels are a function of these. *)
Record RGBA : Type := { Bounds : Rectangle; Drawn : list DrawOp }.

(** [image.NewRGBA(r)].  The library allocates the pixels of the canvas
    and panics on a rectangle whose size it or the runtime refuses
    (negative, overflowing or too large dimensions).  [allocates r] tells
    whether the library and runtime at hand grant a canvas with the
    bounds [r]. *)
Definition image_NewRGBA (allocates : Rectangle -> bool) (r : Rectangle)
  : Res Rectangle :=
  if allocates r then Ok r else Panic CanvasRefused.

(** [c.HeatMapDrawImage = img]. *)
Definition set_HeatMapDrawImage (c : EyeTribeConnection) (img : option Image)
  : EyeTribeConnection :=
  {| ScreenWidth := ScreenWidth c; ScreenHeight := ScreenHeight c;
     HeartbeatTimeoutMillisecond := HeartbeatTimeoutMillisecond c;
     FrameList := FrameList c; HeartbeatTask := HeartbeatTask c;
     HeatMapDrawImage := img; CheckConfig := CheckConfig c |}.

(** [c.LoadHeatMapDrawImage()]: what is returned, and the connection
    afterwards.  [png] is what opening and decoding heatmap_brush.png
    gives.  The brush kept in the connection is returned when there is
    one; a freshly decoded brush is stored in the connection. *)
Definition LoadHeatMapDrawImage (c : EyeTribeConnection) (png : option Image)
  : Res Image * EyeTribeConnection :=
  match HeatMapDrawImage c with
  | Some img => (Ok img, c)
  | None =>
      match png with
      | Some img => (Ok img, set_HeatMapDrawImage c (Some img))
      | None => (Err ErrBrush, c)
      end
  end.

(** The body of the renderer's loop: the stamp of one list element, if
    it has one. *)
Definition heat_map_stamp (drawImage : Image) (f : option Frame) : list DrawOp :=
  match f with
  | None => []
  | Some frame =>
      match Avg frame with
      | None => []
      | Some p =>
          if outlier p then []
          else
            let drawWidth := 100%float in
            let drawHeight := 100%float in
            let x := X p in
            let y := Y p in
            let x_start := PrimFloat.sub x (PrimFloat.div drawWidth 2) in
            let y_start := PrimFloat.sub y (PrimFloat.div drawHeight 2) in
            let x_end := PrimFloat.add x (PrimFloat.div drawWidth 2) in
            let y_end := PrimFloat.add y (PrimFloat.div drawHeight 2) in
            [ StampOver
                (image_Rect (int64_of_float64 x_start) (int64_of_float64 y_start)
                            (int64_of_float64 x_end) (int64_of_float64 y_end))
                drawImage ]
      end
  end.

(** [c.CreateHeatMapImage()]: what is returned, and the connection
    afterwards.  The canvas is allocated and cleared before the brush is
    loaded. *)
Definition CreateHeatMapImage (allocates : Rectangle -> bool)
    (c : EyeTribeConnection) (png : option Image)
  : Res RGBA * EyeTribeConnection :=
  match image_NewRGBA allocates
          (image_Rect 0 0 (ScreenWidth c) (ScreenHeight c)) with
  | Panic p => (Panic p, c)
  | Err e => (Err e, c)
  | Ok bounds =>
      let (loaded, c') := LoadHeatMapDrawImage c png in
      (drawImage <- loaded ;;
       Ok {| Bounds := bounds;
             Drawn := ClearTransparent bounds
                      :: flat_map (heat_map_stamp drawImage) (FrameList c') |},
       c')
  end.

(** The brush stamps of a rendered canvas. *)
Definition stamps (img : RGBA) : list DrawOp :=
  List.filter (fun op => match op with StampOver _ _ => true | _ => false end)
              (Drawn img).

(* ===================================================================== *)
(** * The region checks                                                   *)
(* ===================================================================== *)

(** The test [x >= v.X && x <= (v.X + v.Width) && y >= v.Y &&
    y <= (v.Y + v.Height)]. *)
Definition in_target (v : EyeTrackCheckPoint) (x y : float) : bool :=
  fge x (CX v) && fle x (PrimFloat.add (CX v) (Width v))
  && fge y (CY v) && fle y (PrimFloat.add (CY v) (Height v)).

(** The inner loop over [c.CheckConfig.TargetList] for the point [(x, y)]:
    every non-nil target has its entry written, true or false. *)
Definition check_targets (targets : list (option EyeTrackCheckPoint))
    (x y : float) (result : gmap string bool) : gmap string bool :=
  fold_left
    (fun (res : gmap string bool) (v : option EyeTrackCheckPoint) =>
       match v with
       | None => res
       | Some v => <[ Name v := in_target v x y ]> res
       end)
    targets result.

(** The start of the time window.  [millisecond] is the result of
    [strconv.Atoi] on the form value ([None] when it does not parse). *)
Definition window_start (millisecond : option Z) (now : Time) : Time :=
  let delta_millisecond := default (10 * 1000) millisecond in
  Time_Add now (int_mul (int_neg delta_millisecond) Millisecond).

(** The body of the outer loop of [ServeEyeTrackCheck]. *)
Definition check_frame (targets : list (option EyeTrackCheckPoint))
    (start : Time) (result : gmap string bool) (f : option Frame)
  : gmap string bool :=
  match f with
  | None => result
  | Some frame =>
      match Avg frame with
      | None => result
      | Some p =>
          if 0 <? Time_Sub start (GoTime frame) then result
          else if outlier p then result
          else check_targets targets (X p) (Y p) result
      end
  end.

(** [c.ServeEyeTrackCheck(w, r)]: the result map that is encoded to [w]. *)
Definition ServeEyeTrackCheck (c : EyeTribeConnection) (millisecond : option Z)
    (now : Time) : gmap string bool :=
  fold_left (check_frame (TargetList (CheckConfig c)) (window_start millisecond now))
            (FrameList c) ∅.

(** The body of the outer loop of [ServeEyeTrackCheckFixation]. *)
Definition check_fixation (targets : list (option EyeTrackCheckPoint))
    (start : Time) (result : gmap string bool) (data : FixateData)
  : gmap string bool :=
  if 0 <? Time_Sub start (FGoTime data) then result
  else check_targets targets (FX data) (FY data) result.

(** [c.ServeEyeTrackCheckFixation(w, r)]: the result map that is encoded
    to [w].  [now] is the clock of the handler, [now0] and [now1] those of
    the detector. *)
Definition ServeEyeTrackCheckFixation (c : EyeTribeConnection)
    (millisecond : option Z) (now now0 now1 : Time) : Res (gmap string bool) :=
  let start := window_start millisecond now in
  data_list <- GetFixationDataList c now0 now1 ;;
  Ok (fold_left (check_fixation (TargetList (CheckConfig c)) start) data_list ∅).

(* ===================================================================== *)
(** * The status handshake                                                *)
(* ===================================================================== *)

(** A value decoded by encoding/json into an [interface{}]. *)
#[local] Unset Elimination Schemes.
Inductive JsonValue : Type :=
| JNull
| JBool (b : bool)
| JNumber (f : float)
| JString (s : string)
| JArray (l : list JsonValue)
| JObject (m : list (string * JsonValue)).
#[local] Set Elimination Schemes.

(** The generic answer of the server. *)
Record ResponseMessage : Type := {
  RCategory : string;
  RRequest : string;
  RStatusCode : Z;
  RValues : gmap string JsonValue
}.

(** [ConvInterfaceToInt64(v, name)].  [val.(float64)] is the one-result
    form of the type assertion. *)
Definition ConvInterfaceToInt64 (v : gmap string JsonValue) (name : string)
  : Res Z :=
  match v !! name with
  | None => Err (ErrNoField name)
  | Some (JNumber f) => Ok (int64_of_float64 f)
  | Some _ => Panic TypeAssertion
  end.

(** What the network does during [CreateServerConnection]. *)
Record Network : Type := {
  resolved : bool;                      (* net.ResolveTCPAddr succeeded *)
  dialed : bool;                        (* net.DialTCP succeeded *)
  encoded : bool;                       (* the status request was written *)
  response : option ResponseMessage     (* the decoded answer, if any *)
}.

(** [rw.RequestOne(input)]: push one JSON message, pull one. *)
Definition RequestOne (net : Network) : Res ResponseMessage :=
  if negb (encoded net) then Err ErrEncode
  else match response net with
       | None => Err ErrDecode
       | Some r => Ok r
       end.

Definition set_screen (c : EyeTribeConnection) (w h rate : Z) : EyeTribeConnection :=
  {| ScreenWidth := w; ScreenHeight := h; HeartbeatTimeoutMillisecond := rate;
     FrameList := FrameList c; HeartbeatTask := HeartbeatTask c;
     HeatMapDrawImage := HeatMapDrawImage c; CheckConfig := CheckConfig c |}.

(** [c.GetServerStatus()]: whether the server is calibrated, the heartbeat
    interval, and the connection with the screen fields stored.  (On an
    error the fields stored so far are of no use: the only caller drops
    the connection.) *)
Definition GetServerStatus (c : EyeTribeConnection) (net : Network)
  : Res (bool * Duration * EyeTribeConnection) :=
  response <- RequestOne net ;;
  if negb (RStatusCode response =? 200) then Err ErrStatusNot200
  else
    match RValues response !! "iscalibrated"%string with
    | None => Err ErrNoIsCalibrated
    | Some iscalibrated =>
        interval <- ConvInterfaceToInt64 (RValues response) "heartbeatinterval" ;;
        if interval <=? 0 then Err (ErrInvalidHeartbeat interval)
        else
          w <- ConvInterfaceToInt64 (RValues response) "screenresw" ;;
          h <- ConvInterfaceToInt64 (RValues response) "screenresh" ;;
          rate <- ConvInterfaceToInt64 (RValues response) "framerate" ;;
          match iscalibrated with
          | JBool b => Ok (b, int_mul interval Millisecond, set_screen c w h rate)
          | _ => Panic TypeAssertion
          end
    end.

(** The connection right after the dial: an empty frame list, no task. *)
Definition fresh_connection : EyeTribeConnection :=
  {| ScreenWidth := 0; ScreenHeight := 0; HeartbeatTimeoutMillisecond := 0;
     FrameList := []; HeartbeatTask := None; HeatMapDrawImage := None;
     CheckConfig := {| Fixation := None; TargetList := [] |} |}.

(** [c.StartHeartbeatTask(interval)]. *)
Definition StartHeartbeatTask (c : EyeTribeConnection) (interval : Duration)
  : EyeTribeConnection :=
  {| ScreenWidth := ScreenWidth c; ScreenHeight := ScreenHeight c;
     HeartbeatTimeoutMillisecond := HeartbeatTimeoutMillisecond c;
     FrameList := FrameList c; HeartbeatTask := Some interval;
     HeatMapDrawImage := HeatMapDrawImage c; CheckConfig := CheckConfig c |}.

(** [CreateServerConnection(host_and_port)]. *)
Definition CreateServerConnection (net : Network) : Res EyeTribeConnection :=
  if negb (resolved net) then Err ErrResolve
  else if negb (dialed net) then Err ErrDial
  else
    st <- GetServerStatus fresh_connection net ;;
    let '(calibrated, interval, ret) := st in
    if negb calibrated then Err ErrNotCalibrated
    else Ok (StartHeartbeatTask ret (int_quot interval 2)).

(* ===================================================================== *)
(** * Notions used to state the properties                                *)
(* ===================================================================== *)

(** An entry without a gaze point: a nil frame, or a frame whose [Avg]
    is nil. *)
Definition no_gaze (f : option Frame) : bool :=
  match f with
  | None => true
  | Some frame => match Avg frame with None => true | Some _ => false end
  end.

(** A sentinel frame: one with [avg.x <= 0] and [avg.y <= 0]. *)
Definition sentinel (f : option Frame) : bool :=
  match f with
  | None => false
  | Some frame => match Avg frame with None => false | Some p => outlier p end
  end.

(** The entries every consumer's loop passes over with [continue]. *)
Definition passed_over (f : option Frame) : bool := no_gaze f || sentinel f.

(** The frame on which the detector's loop, standing in [st], takes the
    branch of a gaze that moved away. *)
Definition breaks_at (distance2 : float) (st : Fixating) (f : option Frame)
  : option Frame :=
  match f with
  | None => None
  | Some frame =>
      match Avg frame with
      | None => None
      | Some p =>
          if outlier p then None
          else if moved_away distance2 st (X p) (Y p) then Some frame
          else None
      end
  end.

(** The frame that opened the cluster the loop is in once it has gone
    over [pre] from the state [st]: the last frame of [pre] on which the
    break branch was taken, and [opener] when there is none. *)
Fixpoint cluster_opener (distance2 : float) (min_msec : Z) (st : Fixating)
    (pre : list (option Frame)) (opener : option Frame) : option Frame :=
  match pre with
  | [] => opener
  | f :: more =>
      cluster_opener distance2 min_msec (fixation_step distance2 min_msec st f) more
        (match breaks_at distance2 st f with
         | Some frame => Some frame
         | None => opener
         end)
  end.

(** [anchored st0 st o]: the reference point and the start time held in
    [st] are those of the frame [o] that opened the cluster, and those of
    the entry state [st0] while no cluster has been opened. *)
Definition anchored (st0 st : Fixating) (o : option Frame) : Prop :=
  match o with
  | Some frame =>
      PrevTime st = GoTime frame
      /\ Avg frame = Some {| X := PrevX st; Y := PrevY st |}
  | None =>
      PrevTime st = PrevTime st0 /\ PrevX st = PrevX st0 /\ PrevY st = PrevY st0
  end.

(** The squared Euclidean distance [xx * xx + yy * yy] from [a] to [b]. *)
Definition squared_distance (a b : Point) : float :=
  let xx := PrimFloat.sub (X a) (X b) in
  let yy := PrimFloat.sub (Y a) (Y b) in
  PrimFloat.add (PrimFloat.mul xx xx) (PrimFloat.mul yy yy).

(** The point [(PrevX, PrevY)] has when the loop is entered: that of the
    front entry, and a point far away when the list is empty or its front
    is nil or has no [Avg]. *)
Definition entry_point (frames : list (option Frame)) : Point :=
  let far := {| X := (-1000000)%float; Y := (-1000000)%float |} in
  match frames with
  | Some front_frame :: _ => default far (Avg front_frame)
  | _ => far
  end.

(** The time [PrevTime] has when the loop is entered: that of the front
    entry, and the clock when the list is empty or its front is nil. *)
Definition entry_time (frames : list (option Frame)) (now0 : Time) : Time :=
  match frames with
  | Some front_frame :: _ => GoTime front_frame
  | _ => now0
  end.

(** The event the detector appends when it stands in [st]. *)
Definition event_of (st : Fixating) : FixateData :=
  {| FX := AverageX st; FY := AverageY st; FGoTime := PrevTime st |}.

(** The online running mean of the specification: the first sample, then
    each further sample folded in with weight [1 / (1 + k)], [k] being the
    number of samples already in the mean. *)
Fixpoint online_mean_from (mean : float) (k : Z) (samples : list float) : float :=
  match samples with
  | [] => mean
  | x :: more =>
      let alpha := PrimFloat.div 1 (PrimFloat.add 1 (float64_of_int64 k)) in
      online_mean_from
        (PrimFloat.add (PrimFloat.mul (PrimFloat.sub 1 alpha) mean)
                       (PrimFloat.mul alpha x))
        (k + 1) more
  end.

Definition online_mean (samples : list float) : float :=
  match samples with
  | [] => 0%float
  | x :: more => online_mean_from x 1 more
  end.

(** The last non-nil target called [name]. *)
Fixpoint last_named (targets : list (option EyeTrackCheckPoint)) (name : string)
  : option EyeTrackCheckPoint :=
  match targets with
  | [] => None
  | v :: more =>
      match last_named more name with
      | Some w => Some w
      | None =>
          match v with
          | Some v => if String.eqb (Name v) name then Some v else None
          | None => None
          end
      end
  end.

(** A message the ingestion loop is to discard: a status code other than
    200, a heartbeat, or values without a frame. *)
Definition discardable (msg : OneFrameMessage) : bool :=
  negb (StatusCode msg =? 200)
  || String.eqb (Category msg) "heartbeat"
  || match Values msg !! "frame"%string with None => true | Some _ => false end.

(** The point of an entry the raw region check evaluates: a frame with an
    [Avg], not older than [start], not a sentinel. *)
Definition evaluated (start : Time) (f : option Frame) : option Point :=
  match f with
  | None => None
  | Some frame =>
      match Avg frame with
      | None => None
      | Some p =>
          if 0 <? Time_Sub start (GoTime frame) then None
          else if outlier p then None
          else Some p
      end
  end.

(** The point of the last entry of the list that is evaluated. *)
Fixpoint last_evaluated (start : Time) (frames : list (option Frame))
  : option Point :=
  match frames with
  | [] => None
  | f :: more =>
      match last_evaluated start more with
      | Some p => Some p
      | None => evaluated start f
      end
  end.

(** The fields [GetServerStatus] converts to integers, in its order. *)
Definition numeric_fields : list string :=
  ["heartbeatinterval"; "screenresw"; "screenresh"; "framerate"]%string.



(** The conditions under which the handshake answers with an error: no
    socket, no request written, no answer decoded, a status code other
    than 200, no [iscalibrated] field or a false one, a numeric field
    that is missing, or a heartbeat interval whose conversion to an int64
    is not positive. *)
Definition refused (net : Network) : bool :=
  negb (resolved net) || negb (dialed net) || negb (encoded net)
  || match response net with
     | None => true
     | Some r =>
         negb (RStatusCode r =? 200)
         || match RValues r !! "iscalibrated"%string with
            | None | Some (JBool false) => true
            | Some _ => false
            end
         || existsb (fun name => match RValues r !! name with
                                 | None => true
                                 | Some _ => false
                                 end) numeric_fields
         || match RValues r !! "heartbeatinterval"%string with
            | Some (JNumber f) => int64_of_float64 f <=? 0
            | _ => false
            end
     end.

(* ===================================================================== *)
(** * Sample data                                                         *)
(* ===================================================================== *)

Module Sample.

(** A frame with average gaze [(x, y)] received at [ms] milliseconds. *)
Definition frame_at (x y : float) (ms : Z) : option Frame :=
  Some {| Timestamp := ""; FTime := 0; Fix := false; State := 0;
          Raw := None; Avg := Some {| X := x; Y := y |};
          LeftEye := None; RightEye := None;
          GoTime := ms * Millisecond |}.

(** A frame the device sent without an average gaze. *)
Definition frame_no_avg (ms : Z) : option Frame :=
  Some {| Timestamp := ""; FTime := 0; Fix := false; State := 0;
          Raw := None; Avg := None;
          LeftEye := None; RightEye := None;
          GoTime := ms * Millisecond |}.

Definition logo : EyeTrackCheckPoint :=
  {| CX := 0; CY := 0; Width := 50; Height := 50; Name := "logo" |}.

(** A connection holding [frames], with an empty fixation map (so the
    defaults 50 and 100 apply) and the one target [logo]. *)
Definition conn (frames : list (option Frame)) : EyeTribeConnection :=
  {| ScreenWidth := 1920; ScreenHeight := 1080;
     HeartbeatTimeoutMillisecond := 30;
     FrameList := frames; HeartbeatTask := Some 1500000000;
     HeatMapDrawImage := Some (PngImage "heatmap_brush.png");
     CheckConfig := {| Fixation := Some ∅; TargetList := [Some logo] |} |}.

Definition heartbeat_reply : OneFrameMessage :=
  {| Category := "heartbeat"; Request := ""; StatusCode := 200; Values := ∅ |}.

(** The answer of a calibrated server to the status request, with the
    heartbeat interval [interval]. *)
Definition status_reply (interval : JsonValue) : ResponseMessage :=
  {| RCategory := "tracker"; RRequest := "get"; RStatusCode := 200;
     RValues := <[ "push"%string := JBool false ]>
               (<[ "iscalibrated"%string := JBool true ]>
               (<[ "heartbeatinterval"%string := interval ]>
               (<[ "screenresw"%string := JNumber 1920 ]>
               (<[ "screenresh"%string := JNumber 1080 ]>
               (<[ "framerate"%string := JNumber 30 ]> ∅))))) |}.

(** A network on which everything is sent and [reply] comes back. *)
Definition answering (reply : ResponseMessage) : Network :=
  {| resolved := true; dialed := true; encoded := true;
     response := Some reply |}.

End Sample.

(* ===================================================================== *)
(** * The heat-map tool (package main, the log replayer)                  *)
(* ===================================================================== *)

Module HeatmapTool.

(** A line of the log that records a page request. *)
Record RequestPath : Type := {
  RPath : string;          (* "request path" *)
  RUnixTime : Z            (* "unix time" *)
}.

(** The log of one web page. *)
Record OneWebPageTrackLog : Type := {
  FrameArray : list (option Frame);
  Url : string;
  UnixTime : Z;
  ImageFileNameList : list string
}.

(** The seconds from the year 1, where package time counts from, to the
    year 1970. *)
Definition unixToInternal : Z := 62135596800.

(** [time.Unix(sec, 0)] as an instant in nanoseconds.  The seconds are
    kept counted from the year 1 in an int64, [sec + unixToInternal], so
    that a [sec] near the top of the int64 range wraps around to an
    instant far in the past. *)
Definition time_Unix (sec : Z) : Time :=
  (wrap64 (sec + unixToInternal) - unixToInternal) * 1000000000.

(** The loop of the tool's [CreateHeatMapImage] over [log.FrameArray]: the
    stamps drawn, in order.  A frame later than [maxTime] ends the loop
    when [maxSecond] is positive; [*drawImage] dereferences the brush
    pointer at each stamp. *)
Fixpoint draw_frames (drawImage : option Image) (maxSecond : Z) (maxTime : Time)
    (frames : list (option Frame)) : Res (list DrawOp) :=
  match frames with
  | [] => Ok []
  | f :: more =>
      match f with
      | None => draw_frames drawImage maxSecond maxTime more
      | Some frame =>
          match Avg frame with
          | None => draw_frames drawImage maxSecond maxTime more
          | Some p =>
              if fle (X p) 0 && fle (Y p) 0
              then draw_frames drawImage maxSecond maxTime more
              else if (0 <? maxSecond) && (Time_Sub maxTime (GoTime frame) <? 0)
              then Ok []
              else
                match drawImage with
                | None => Panic NilDereference
                | Some img =>
                    let drawWidth := 100%float in
                    let drawHeight := 100%float in
                    let x := X p in
                    let y := Y p in
                    let x_start := PrimFloat.sub x (PrimFloat.div drawWidth 2) in
                    let y_start := PrimFloat.sub y (PrimFloat.div drawHeight 2) in
                    let x_end := PrimFloat.add x (PrimFloat.div drawWidth 2) in
                    let y_end := PrimFloat.add y (PrimFloat.div drawHeight 2) in
                    ops <- draw_frames drawImage maxSecond maxTime more ;;
                    Ok (StampOver
                          (image_Rect (int64_of_float64 x_start)
                                      (int64_of_float64 y_start)
                                      (int64_of_float64 x_end)
                                      (int64_of_float64 y_end))
                          img :: ops)
                end
          end
      end
  end.

(** The tool's [CreateHeatMapImage(heatMapImage, log, ScreenWidth,
    ScreenHeight, maxSecond, startUnixTime)]. *)
Definition CreateHeatMapImage (allocates : Rectangle -> bool)
    (heatMapImage : option Image)
    (log : OneWebPageTrackLog) (ScreenWidth ScreenHeight : Z)
    (maxSecond startUnixTime : Z) : Res RGBA :=
  bounds <- image_NewRGBA allocates (image_Rect 0 0 ScreenWidth ScreenHeight) ;;
  let maxTime := time_Unix (wrap64 (startUnixTime + maxSecond)) in
  ops <- draw_frames heatMapImage maxSecond maxTime (FrameArray log) ;;
  Ok {| Bounds := bounds; Drawn := ClearTransparent bounds :: ops |}.

(** One line read from the log file, as [main] takes it: a line that
    contains the words request path, with what [json.Unmarshal] makes of
    it as a [RequestPath], or any other line, with what it makes of it as
    a frame message ([None]: the line does not decode). *)
Inductive LogLine : Type :=
| RequestLine (decoded : option RequestPath)
| FrameLine (decoded : option OneFrameMessage).

Definition new_page (url : string) (unixTime : Z) : OneWebPageTrackLog :=
  {| FrameArray := []; Url := url; UnixTime := unixTime;
     ImageFileNameList := [] |}.

Definition add_frame (log : OneWebPageTrackLog) (frame : option Frame)
  : OneWebPageTrackLog :=
  {| FrameArray := FrameArray log ++ [frame]; Url := Url log;
     UnixTime := UnixTime log; ImageFileNameList := ImageFileNameList log |}.

(** The reading loop of [main], from the state [(all_log, current_log)],
    with the final append of the last page.  [None]: [main] returned from
    inside the loop, on a frame message without a frame. *)
Fixpoint read_lines (lines : list LogLine) (all_log : list OneWebPageTrackLog)
    (current_log : OneWebPageTrackLog) : option (list OneWebPageTrackLog) :=
  match lines with
  | [] => Some (all_log ++ [current_log])
  | RequestLine None :: more => read_lines more all_log current_log
  | RequestLine (Some requestPath) :: more =>
      read_lines more (all_log ++ [current_log])
        (new_page (RPath requestPath) (RUnixTime requestPath))
  | FrameLine None :: more => read_lines more all_log current_log
  | FrameLine (Some responseMessage) :: more =>
      match Values responseMessage !! "frame"%string with
      | None => None
      | Some frame => read_lines more all_log (add_frame current_log frame)
      end
  end.

(** The pages [main] has after reading the whole log. *)
Definition read_log (lines : list LogLine) : option (list OneWebPageTrackLog) :=
  read_lines lines [] (new_page "UNKNOWN URL" 0).

End HeatmapTool.

(* ===================================================================== *)
(** * Further notions                                                     *)
(* ===================================================================== *)

(** An entry with a gaze point that is not a sentinel. *)
Definition valid (f : option Frame) : bool := negb (passed_over f).

(** The arrival times of the frames of a list, nil entries left out. *)
Definition arrival_times (frames : list (option Frame)) : list Time :=
  flat_map (fun f : option Frame =>
              match f with Some frame => [GoTime frame] | None => [] end) frames.

(** The last fixation of the list that is not older than [start]. *)
Fixpoint last_checked (start : Time) (events : list FixateData)
  : option FixateData :=
  match events with
  | [] => None
  | e :: more =>
      match last_checked start more with
      | Some e' => Some e'
      | None => if 0 <? Time_Sub start (FGoTime e) then None else Some e
      end
  end.

(** Two states of the detector's loop that differ at most in
    [CurrentTime], and not even there once a frame has been counted. *)
Definition same_but_current (st st' : Fixating) : Prop :=
  PrevX st = PrevX st' /\ PrevY st = PrevY st'
  /\ PrevTime st = PrevTime st' /\ check_time st = check_time st'
  /\ AverageX st = AverageX st' /\ AverageY st = AverageY st'
  /\ fixate_count st = fixate_count st'
  /\ fixate_count_sum st = fixate_count_sum st'
  /\ result st = result st'
  /\ (fixate_count st <> 0 -> CurrentTime st = CurrentTime st').

(** ** Clusters of the frame list

    The detector, read as a segmentation of the frame list.  A cluster is
    opened at a time and at a reference point; the frames that come next
    and lie within the distance of the reference point stay in it; the
    first frame farther away closes it and opens the next cluster, at its
    own arrival time and its own point. *)

(** The frame and the gaze point of an entry that is not passed over. *)
Definition gaze_of (f : option Frame) : option (Frame * Point) :=
  match f with
  | None => None
  | Some frame =>
      match Avg frame with
      | None => None
      | Some p => if outlier p then None else Some (frame, p)
      end
  end.

Record Cluster : Type := {
  opened : Time;          (* when the cluster was opened *)
  reference : Point;      (* the point it was opened at *)
  stayed : list Frame     (* the frames that stayed in it, in order *)
}.

Definition open_cluster (t : Time) (p : Point) : Cluster :=
  {| opened := t; reference := p; stayed := [] |}.

Definition stay_in (cl : Cluster) (frame : Frame) : Cluster :=
  {| opened := opened cl; reference := reference cl;
     stayed := stayed cl ++ [frame] |}.

(** The clusters of [frames], oldest first, [current] being the cluster
    that is open at the front of [frames].  Each cluster comes with the
    frame that closed it; the last one, still open at the end of the
    list, comes with none. *)
Fixpoint clusters_from (distance2 : float) (current : Cluster)
    (frames : list (option Frame)) : list (Cluster * option Frame) :=
  match frames with
  | [] => [(current, None)]
  | f :: more =>
      match gaze_of f with
      | None => clusters_from distance2 current more
      | Some (frame, p) =>
          if flt distance2 (squared_distance (reference current) p)
          then (current, Some frame)
               :: clusters_from distance2 (open_cluster (GoTime frame) p) more
          else clusters_from distance2 (stay_in current frame) more
      end
  end.

(** The clusters of a frame list.  The first is opened at the arrival
    time and the point of the front entry (the clock, and a point far
    away, where the front entry gives none). *)
Definition clusters (distance2 : float) (frames : list (option Frame))
    (now0 : Time) : list (Cluster * option Frame) :=
  clusters_from distance2
    (open_cluster (entry_time frames now0) (entry_point frames)) frames.

(** The number of frames that stayed in a cluster, as an [int] holds it. *)
Definition stay_count (cl : Cluster) : Z := wrap64 (Z.of_nat (length (stayed cl))).

(** A coordinate of the reference point after [n] rounds of smoothing:
    round [k] keeps [1 - 1 / (1 + k)] of the value and adds [1 / (1 + k)]
    of the reference coordinate. *)
Fixpoint smoothed (ref : float) (n : nat) : float :=
  match n with
  | O => ref
  | S k =>
      let alpha :=
        PrimFloat.div 1 (PrimFloat.add 1 (float64_of_int64 (wrap64 (Z.of_nat (S k))))) in
      PrimFloat.add (PrimFloat.mul (PrimFloat.sub 1 alpha) (smoothed ref k))
                    (PrimFloat.mul alpha ref)
  end.

(** The event that stands for a cluster: its smoothed reference point and
    the time at which it was opened. *)
Definition cluster_event (cl : Cluster) : FixateData :=
  {| FX := smoothed (X (reference cl)) (length (stayed cl));
     FY := smoothed (Y (reference cl)) (length (stayed cl));
     FGoTime := opened cl |}.

(** Whether a cluster counts as a fixation.  A cluster closed by a frame:
    that frame arrived more than [min_msec] milliseconds after the
    cluster was opened, and more than one frame stayed.  The cluster
    still open at the end: the last frame that stayed arrived more than
    [min_msec] milliseconds after the cluster was opened. *)
Definition reported (min_msec : Z) (closed : Cluster * option Frame) : bool :=
  let (cl, closer) := closed in
  let deadline := opened cl + int_mul Millisecond min_msec in
  match closer with
  | Some frame => (deadline <? GoTime frame) && (1 <? stay_count cl)
  | None =>
      match last (stayed cl) with
      | Some frame => (0 <? stay_count cl) && (deadline <? GoTime frame)
      | None => false
      end
  end.

(** The fixations of a frame list: the events of its reported clusters. *)
Definition fixations_of (distance2 : float) (min_msec : Z)
    (frames : list (option Frame)) (now0 : Time) : list FixateData :=
  map (fun closed : Cluster * option Frame => cluster_event (fst closed))
      (List.filter (reported min_msec) (clusters distance2 frames now0)).

(** The variables of the detector's loop stand in the cluster [cl]. *)
Definition stands_in (min_msec : Z) (st : Fixating) (cl : Cluster) : Prop :=
  PrevX st = X (reference cl) /\ PrevY st = Y (reference cl)
  /\ PrevTime st = opened cl
  /\ check_time st = opened cl + int_mul Millisecond min_msec
  /\ AverageX st = smoothed (X (reference cl)) (length (stayed cl))
  /\ AverageY st = smoothed (Y (reference cl)) (length (stayed cl))
  /\ fixate_count st = stay_count cl
  /\ (forall frame, last (stayed cl) = Some frame -> CurrentTime st = GoTime frame).

(** What a reported cluster has outlasted: the time from its opening to
    the arrival of the frame that closed it, or, for the cluster still
    open at the end, to the arrival of the last frame that stayed. *)
Definition outlasts (min_msec : Z) (closed : Cluster * option Frame) : Prop :=
  let (cl, closer) := closed in
  match closer with
  | Some frame =>
      opened cl + int_mul Millisecond min_msec < GoTime frame
      /\ (2 <= length (stayed cl))%nat
  | None =>
      exists frame,
        last (stayed cl) = Some frame
        /\ opened cl + int_mul Millisecond min_msec < GoTime frame
  end.

(** What the detector's loop keeps true about counts, [n] being the
    number of frames with a gaze point that is not a sentinel gone over:
    [fixate_count] is the (wrapped) number [s] of frames counted since the
    cluster was opened, and each event appended stands for three frames
    of its own. *)
Definition counted (st : Fixating) (n : nat) : Prop :=
  exists s : nat,
    fixate_count st = wrap64 (Z.of_nat s)
    /\ (3 * length (result st) + s <= n)%nat.

(** [pulls ev frame]: the event is a decode on the connection for which
    [PullOneFrame] returns [frame] (nil for a discarded message) and no
    error. *)
Definition pulls (ev : PullEvent) (frame : option Frame) : Prop :=
  exists (decoded : option OneFrameMessage) (now : Time),
    ev = Incoming decoded now /\ PullOneFrame decoded now = Ok frame.

(** An event of the loop that ends the ingestion task: the quit signal or
    a decode error. *)
Definition ends_task (ev : PullEvent) : bool :=
  match ev with
  | QuitSignal => true
  | Incoming None _ => true
  | Incoming (Some _) _ => false
  end.

(** A line of the log at which [main] gives up: a frame message that
    decodes but has no frame. *)
Definition aborts (line : HeatmapTool.LogLine) : bool :=
  match line with
  | HeatmapTool.FrameLine (Some msg) =>
      match Values msg !! "frame"%string with None => true | Some _ => false end
  | _ => false
  end.

(** The frames the lines of a log carry, in order. *)
Definition line_frames (line : HeatmapTool.LogLine) : list (option Frame) :=
  match line with
  | HeatmapTool.FrameLine (Some msg) =>
      match Values msg !! "frame"%string with
      | Some frame => [frame]
      | None => []
      end
  | _ => []
  end.

(** The page requests the lines of a log carry, in order. *)
Definition line_requests (line : HeatmapTool.LogLine)
  : list HeatmapTool.RequestPath :=
  match line with
  | HeatmapTool.RequestLine (Some requestPath) => [requestPath]
  | _ => []
  end.

(** An entry that the cut-off at [maxTime] keeps: nil, or not later. *)
Definition not_later (maxTime : Time) (f : option Frame) : bool :=
  match f with
  | Some frame => GoTime frame <=? maxTime
  | None => true
  end.

(* ===================================================================== *)
(** * Arithmetic of the runtime                                           *)
(* ===================================================================== *)

Lemma wrap64_small (z : Z) :
  int64_min <= z <= int64_max -> wrap64 z = z.
Proof.
  unfold wrap64, int64_min, int64_max. intros Hz.
  rewrite Z.mod_small; lia.
Qed.

(** The saturation of [Sub] keeps the sign of the difference. *)
Lemma Time_Sub_pos (t u : Time) : (0 <? Time_Sub t u) = (u <? t).
Proof.
  unfold Time_Sub, int64_min, int64_max.
  destruct (Z.ltb_spec (t - u) (- 2 ^ 63));
    [| destruct (Z.ltb_spec (2 ^ 63 - 1) (t - u))];
    destruct (Z.ltb_spec u t); try reflexivity;
    match goal with |- (0 <? ?x) = _ => destruct (Z.ltb_spec 0 x) end;
    try reflexivity; lia.
Qed.

Lemma Time_Sub_neg (t u : Time) : (Time_Sub t u <? 0) = (t <? u).
Proof.
  unfold Time_Sub, int64_min, int64_max.
  destruct (Z.ltb_spec (t - u) (- 2 ^ 63));
    [| destruct (Z.ltb_spec (2 ^ 63 - 1) (t - u))];
    destruct (Z.ltb_spec t u); try reflexivity;
    match goal with |- (?x <? 0) = _ => destruct (Z.ltb_spec x 0) end;
    try reflexivity; lia.
Qed.

(** Counting up and wrapping at every step is counting up and wrapping
    at the end. *)
Lemma wrap64_succ (a : Z) : wrap64 (wrap64 a + 1) = wrap64 (a + 1).
Proof.
  unfold wrap64.
  replace ((a + 2 ^ 63) mod 2 ^ 64 - 2 ^ 63 + 1 + 2 ^ 63)
    with ((a + 2 ^ 63) mod 2 ^ 64 + 1) by lia.
  rewrite Zplus_mod_idemp_l.
  replace (a + 2 ^ 63 + 1) with (a + 1 + 2 ^ 63) by lia.
  reflexivity.
Qed.

(* ===================================================================== *)
(** * The frame list is bounded and evicts oldest first                   *)
(* ===================================================================== *)

Section FrameListBound.

Variable N : Z.
Hypothesis N_pos : 1 <= N.

(** One [AddOneFrame] on a list that respects the bound. *)
Lemma AddOneFrame_within (c : EyeTribeConnection) (frame : option Frame) :
  Z.of_nat (length (FrameList c)) <= N ->
  exists c',
    AddOneFrame (Some c) frame N = Ok (Some c')
    /\ Z.of_nat (length (FrameList c')) <= N
    /\ (Z.of_nat (length (FrameList c)) = N ->
        exists oldest rest,
          FrameList c = oldest :: rest /\ FrameList c' = rest ++ [frame])
    /\ (Z.of_nat (length (FrameList c)) < N ->
        FrameList c' = FrameList c ++ [frame]).
Proof.
  intros Hlen. unfold AddOneFrame.
  destruct (Z.leb_spec N (Z.of_nat (length (FrameList c)))) as [Hfull | Hroom].
  - destruct (FrameList c) as [| oldest rest] eqn:Hl.
    + simpl in Hfull. lia.
    + eexists. split; [reflexivity |]. simpl in *.
      rewrite length_app. simpl. repeat split.
      * lia.
      * intros _. exists oldest, rest. split; reflexivity.
      * intros Hlt. lia.
  - eexists. split; [reflexivity |]. simpl.
    rewrite length_app. simpl. repeat split.
    + lia.
    + intros Heq. lia.
Qed.

(** A run of appends keeps the newest [N] frames, oldest first. *)
Lemma add_frames_keeps_newest (frames : list (option Frame)) :
  forall c : EyeTribeConnection,
    Z.of_nat (length (FrameList c)) <= N ->
    exists c',
      add_frames c frames N = Ok c'
      /\ FrameList c'
         = drop (length (FrameList c ++ frames) - Z.to_nat N)
                (FrameList c ++ frames).
Proof.
  induction frames as [| frame more IH]; intros c Hlen.
  - exists c. split; [reflexivity |].
    rewrite app_nil_r.
    replace (length (FrameList c) - Z.to_nat N)%nat with 0%nat by lia.
    reflexivity.
  - destruct (AddOneFrame_within c frame Hlen) as (c1 & Hadd & Hlen1 & Hfull & Hroom).
    destruct (IH c1 Hlen1) as (c' & Hrun & Hlist).
    exists c'. split.
    + cbn [add_frames]. rewrite Hadd. exact Hrun.
    + rewrite Hlist.
      destruct (Z.eq_dec (Z.of_nat (length (FrameList c))) N) as [Heq | Hne].
      * destruct (Hfull Heq) as (oldest & rest & Hc & Hc1).
        rewrite Hc, Hc1. rewrite Hc in Heq. simpl in Heq.
        rewrite <- app_assoc. simpl.
        rewrite !length_app. simpl.
        replace (S (length rest + S (length more)) - Z.to_nat N)%nat
          with (S (length rest + S (length more) - Z.to_nat N))%nat by lia.
        reflexivity.
      * rewrite (Hroom ltac:(lia)). rewrite <- app_assoc. reflexivity.
Qed.

End FrameListBound.

(** C5. Starting from an empty frame list and appending with a capacity
    [N >= 1], every run of [AddOneFrame] succeeds, leaves at most [N]
    frames, and leaves exactly the newest [N] of the appended frames in
    the order they were appended; a further append on a full list drops
    exactly the front element and puts the new frame at the back, and on
    a list with room it only adds at the back. *)
Theorem frame_list_bounded_fifo (N : Z) (c : EyeTribeConnection)
    (frames : list (option Frame)) :
  1 <= N ->
  FrameList c = [] ->
  exists c',
    add_frames c frames N = Ok c'
    /\ Z.of_nat (length (FrameList c')) <= N
    /\ FrameList c' = drop (length frames - Z.to_nat N) frames
    /\ forall frame : option Frame,
         exists c'',
           AddOneFrame (Some c') frame N = Ok (Some c'')
           /\ Z.of_nat (length (FrameList c'')) <= N
           /\ (Z.of_nat (length (FrameList c')) = N ->
               exists oldest rest,
                 FrameList c' = oldest :: rest
                 /\ FrameList c'' = rest ++ [frame])
           /\ (Z.of_nat (length (FrameList c')) < N ->
               FrameList c'' = FrameList c' ++ [frame]).
Proof.
  intros HN Hempty.
  destruct (add_frames_keeps_newest N HN frames c) as (c' & Hrun & Hlist).
  { rewrite Hempty. simpl. lia. }
  rewrite Hempty in Hlist. simpl in Hlist.
  assert (Hlen : Z.of_nat (length (FrameList c')) <= N).
  { rewrite Hlist, length_drop. lia. }
  exists c'. repeat split; try assumption.
  intros frame. apply AddOneFrame_within; assumption.
Qed.

(** The frame list of the example: capacity 3 and the frames A, B, C, D. *)
Lemma frame_list_bounded_fifo_witness :
  exists c',
    add_frames (Sample.conn [])
      [Sample.frame_at 1 1 0; Sample.frame_at 2 2 1;
       Sample.frame_at 3 3 2; Sample.frame_at 4 4 3] 3 = Ok c'
    /\ FrameList c'
       = [Sample.frame_at 2 2 1; Sample.frame_at 3 3 2; Sample.frame_at 4 4 3].
Proof.
  destruct (frame_list_bounded_fifo 3 (Sample.conn [])
              [Sample.frame_at 1 1 0; Sample.frame_at 2 2 1;
               Sample.frame_at 3 3 2; Sample.frame_at 4 4 3])
    as (c' & Hrun & _ & Hlist & _).
  - lia.
  - reflexivity.
  - exists c'. split; [exact Hrun | exact Hlist].
Defined.

(* ===================================================================== *)
(** * Loops that pass over some of their elements                         *)
(* ===================================================================== *)

Section PassingOver.

Context {S E O : Type}.
Variable skip : E -> bool.

(** A loop whose body does nothing on the elements [skip] selects can
    as well run on the list without them. *)
Lemma fold_left_without (body : S -> E -> S) (l : list E) :
  (forall (s : S) (e : E), skip e = true -> body s e = s) ->
  forall s : S,
    fold_left body (List.filter (fun e => negb (skip e)) l) s = fold_left body l s.
Proof.
  intros Hskip. induction l as [| e more IH]; intros s; [reflexivity |].
  simpl. destruct (skip e) eqn:He; simpl.
  - rewrite (Hskip s e He). apply IH.
  - apply IH.
Qed.

Lemma flat_map_without (body : E -> list O) (l : list E) :
  (forall e : E, skip e = true -> body e = []) ->
  flat_map body (List.filter (fun e => negb (skip e)) l) = flat_map body l.
Proof.
  intros Hskip. induction l as [| e more IH]; [reflexivity |].
  simpl. destruct (skip e) eqn:He; simpl.
  - rewrite (Hskip e He). exact IH.
  - rewrite IH. reflexivity.
Qed.

End PassingOver.

(* ===================================================================== *)
(** * The detector: what a cluster is measured against                    *)
(* ===================================================================== *)

Section Detector.

Variable distance2 : float.
Variable min_msec : Z.

Abbreviation step := (fixation_step distance2 min_msec).
Abbreviation opener_after := (cluster_opener distance2 min_msec).

(** The three ways the loop body can go. *)
Lemma fixation_step_cases (st : Fixating) (f : option Frame) :
  (breaks_at distance2 st f = None /\ passed_over f = true /\ step st f = st)
  \/ (breaks_at distance2 st f = None /\ passed_over f = false
      /\ exists frame, f = Some frame /\ step st f = fixation_stay st (GoTime frame))
  \/ (exists frame p,
        f = Some frame /\ Avg frame = Some p /\ passed_over f = false
        /\ breaks_at distance2 st f = Some frame
        /\ step st f = fixation_break min_msec st (X p) (Y p) (GoTime frame)).
Proof.
  destruct f as [frame |]; [| left; repeat split; reflexivity].
  unfold breaks_at, fixation_step, passed_over, no_gaze, sentinel.
  destruct (Avg frame) as [p |] eqn:Havg.
  2: { left. rewrite ?Havg. repeat split; reflexivity. }
  destruct (outlier p) eqn:Hout.
  { left. rewrite ?Havg, ?Hout. repeat split; reflexivity. }
  destruct (moved_away distance2 st (X p) (Y p)) eqn:Hmoved.
  - right. right. exists frame, p. rewrite ?Havg, ?Hout, ?Hmoved.
    repeat split; reflexivity.
  - right. left. rewrite ?Havg, ?Hout, ?Hmoved.
    repeat split; try reflexivity. exists frame. split; reflexivity.
Qed.

(** An entry that is passed over leaves every variable as it was. *)
Lemma fixation_step_passed_over (st : Fixating) (f : option Frame) :
  passed_over f = true -> step st f = st.
Proof.
  intros Hp.
  destruct (fixation_step_cases st f) as [(_ & _ & H) | [(_ & Hn & _) | (fr & p & _ & _ & Hn & _)]];
    [exact H | congruence | congruence].
Qed.

Lemma anchored_step (st0 st : Fixating) (o : option Frame) (f : option Frame) :
  anchored st0 st o ->
  anchored st0 (step st f)
    (match breaks_at distance2 st f with Some frame => Some frame | None => o end).
Proof.
  intros Ha.
  destruct (fixation_step_cases st f)
    as [(Hb & _ & Hs) | [(Hb & _ & frame & _ & Hs) | (frame & p & _ & Havg & _ & Hb & Hs)]];
    rewrite Hb, Hs.
  - exact Ha.
  - destruct o; exact Ha.
  - simpl. split; [reflexivity |]. rewrite Havg. destruct p; reflexivity.
Qed.

(** Inside a cluster the reference point never moves: after any part of
    the list it is still the point of the frame that opened the cluster. *)
Lemma anchored_fold (st0 : Fixating) (pre : list (option Frame)) :
  forall (st : Fixating) (o : option Frame),
    anchored st0 st o ->
    anchored st0 (fold_left step pre st) (opener_after st pre o).
Proof.
  induction pre as [| f more IH]; intros st o Ha; [exact Ha |].
  simpl. apply IH. apply anchored_step. exact Ha.
Qed.

(** A frame that stays in the cluster changes the variables in a way
    that does not depend on where that frame is. *)
Lemma stay_ignores_point (st : Fixating) (frame : Frame) (p q : Point) :
  outlier p = false -> outlier q = false ->
  moved_away distance2 st (X p) (Y p) = false ->
  moved_away distance2 st (X q) (Y q) = false ->
  Avg frame = Some p ->
  forall frame' : Frame,
    Avg frame' = Some q -> GoTime frame' = GoTime frame ->
    step st (Some frame') = step st (Some frame).
Proof.
  intros Hp Hq Hmp Hmq Havg frame' Havg' Ht.
  unfold fixation_step. rewrite Havg, Havg', Hp, Hq, Hmp, Hmq, Ht. reflexivity.
Qed.

End Detector.

(** The start time the loop is entered with. *)
Lemma fixation_init_PrevTime (min_msec : Z) (frames : list (option Frame))
    (now0 now1 : Time) :
  PrevTime (fixation_init min_msec frames now0 now1) = entry_time frames now0.
Proof.
  unfold fixation_init, entry_time.
  destruct frames as [| [front_frame |] rest]; try reflexivity.
  destruct (Avg front_frame); reflexivity.
Qed.

Lemma fixation_init_result (min_msec : Z) (frames : list (option Frame))
    (now0 now1 : Time) :
  result (fixation_init min_msec frames now0 now1) = []
  /\ fixate_count (fixation_init min_msec frames now0 now1) = 0.
Proof.
  unfold fixation_init.
  destruct frames as [| [front_frame |] rest]; try (split; reflexivity).
  destruct (Avg front_frame); split; reflexivity.
Qed.

Section DetectorClusters.

Variable distance2 : float.
Variable min_msec : Z.

Lemma stands_in_event (st : Fixating) (cl : Cluster) :
  stands_in min_msec st cl -> event_of st = cluster_event cl.
Proof.
  intros (_ & _ & Ht & _ & Hx & Hy & _).
  unfold event_of, cluster_event. rewrite Ht, Hx, Hy. reflexivity.
Qed.

(** A frame that is farther away closes the cluster and opens the next. *)
Lemma stands_in_break (st : Fixating) (cl : Cluster) (frame : Frame) (p : Point) :
  stands_in min_msec st cl ->
  stands_in min_msec (fixation_break min_msec st (X p) (Y p) (GoTime frame))
            (open_cluster (GoTime frame) p).
Proof.
  intros _. unfold stands_in, fixation_break, open_cluster, stay_count, Time_Add.
  simpl. repeat split; try reflexivity. intros frame0 H. discriminate H.
Qed.

(** A frame that is near stays in the cluster. *)
Lemma stands_in_stay (st : Fixating) (cl : Cluster) (frame : Frame) :
  stands_in min_msec st cl ->
  stands_in min_msec (fixation_stay st (GoTime frame)) (stay_in cl frame).
Proof.
  intros (Hx & Hy & Ht & Hc & Hax & Hay & Hn & _).
  assert (Hlen : length (stayed cl ++ [frame]) = S (length (stayed cl))).
  { rewrite length_app. simpl. lia. }
  assert (Hcount : wrap64 (fixate_count st + 1)
                   = wrap64 (Z.of_nat (S (length (stayed cl))))).
  { rewrite Hn. unfold stay_count. rewrite wrap64_succ. f_equal. lia. }
  unfold stands_in, fixation_stay, stay_in, stay_count. simpl.
  rewrite Hlen. simpl smoothed.
  rewrite Hcount, Hax, Hay, Hx, Hy.
  repeat split; try assumption; try reflexivity.
  intros frame0 H. rewrite last_snoc in H. injection H as <-. reflexivity.
Qed.

(** The loop and what is appended after it report the clusters of the
    rest of the list, the cluster the loop stands in first. *)
Lemma fixation_flush_clusters (frames : list (option Frame)) :
  forall (st : Fixating) (cl : Cluster),
    stands_in min_msec st cl ->
    fixation_flush (fold_left (fixation_step distance2 min_msec) frames st)
    = result st
      ++ map (fun closed : Cluster * option Frame => cluster_event (fst closed))
             (List.filter (reported min_msec) (clusters_from distance2 cl frames)).
Proof.
  induction frames as [| f more IH]; intros st cl Hst.
  - pose proof (stands_in_event st cl Hst) as Hev.
    destruct Hst as (_ & _ & _ & Hc & _ & _ & Hn & Hcur).
    unfold fixation_flush, reported. cbn [fold_left clusters_from List.filter].
    rewrite Hn, Hc.
    destruct (last (stayed cl)) as [frame |] eqn:Hlast.
    + rewrite (Hcur frame eq_refl), Time_Sub_neg.
      destruct (_ && _); [| rewrite app_nil_r; reflexivity].
      cbn [map fst]. rewrite <- Hev. reflexivity.
    + apply last_None in Hlast. unfold stay_count. rewrite Hlast.
      cbn. rewrite app_nil_r. reflexivity.
  - cbn [fold_left clusters_from].
    unfold fixation_step at 2. unfold gaze_of.
    destruct f as [frame |]; [| apply IH; exact Hst].
    destruct (Avg frame) as [p |]; [| apply IH; exact Hst].
    destruct (outlier p); [apply IH; exact Hst |].
    assert (Hmoved : moved_away distance2 st (X p) (Y p)
                     = flt distance2 (squared_distance (reference cl) p)).
    { destruct Hst as (Hx & Hy & _). unfold moved_away, squared_distance.
      rewrite Hx, Hy. reflexivity. }
    rewrite Hmoved.
    destruct (flt distance2 (squared_distance (reference cl) p)).
    + rewrite (IH _ _ (stands_in_break st cl frame p Hst)).
      pose proof (stands_in_event st cl Hst) as Hev.
      destruct Hst as (_ & _ & _ & Hc & _ & _ & Hn & _).
      cbn [List.filter]. unfold reported at 2, fixation_break.
      cbn [result]. rewrite Hc, Hn, Time_Sub_neg.
      destruct (_ && _); [| reflexivity].
      cbn [map fst]. rewrite <- Hev, <- app_assoc. reflexivity.
    + rewrite (IH _ _ (stands_in_stay st cl frame Hst)). reflexivity.
Qed.

End DetectorClusters.

(** When the loop is entered, the variables stand in a cluster opened at
    the arrival time and the point of the front entry. *)
Lemma fixation_init_stands_in (min_msec : Z) (frames : list (option Frame))
    (now0 now1 : Time) :
  stands_in min_msec (fixation_init min_msec frames now0 now1)
            (open_cluster (entry_time frames now0) (entry_point frames)).
Proof.
  unfold stands_in, fixation_init, entry_time, entry_point, open_cluster,
    stay_count, Time_Add.
  destruct frames as [| [front_frame |] rest];
    [| destruct (Avg front_frame) as [[x y] |] |];
    simpl; repeat split; try reflexivity; intros frame H; discriminate H.
Qed.

(** The detector segments the frame list into clusters and reports the
    clusters that count as fixations. *)
Lemma fixation_run_clusters (fixation : gmap string Z)
    (frames : list (option Frame)) (now0 now1 : Time) :
  fixation_run fixation frames now0 now1
  = fixations_of
      (float64_of_int64 (int_mul (max_distance_of fixation) (max_distance_of fixation)))
      (min_msec_of fixation) frames now0.
Proof.
  unfold fixation_run, fixations_of, clusters.
  rewrite (fixation_flush_clusters _ _ frames _ _
             (fixation_init_stands_in (min_msec_of fixation) frames now0 now1)).
  rewrite (proj1 (fixation_init_result _ _ _ _)). reflexivity.
Qed.



Lemma fixation_init_point (min_msec : Z) (frames : list (option Frame))
    (now0 now1 : Time) :
  {| X := PrevX (fixation_init min_msec frames now0 now1);
     Y := PrevY (fixation_init min_msec frames now0 now1) |}
  = entry_point frames.
Proof.
  unfold fixation_init, entry_point.
  destruct frames as [| [front_frame |] rest]; try reflexivity.
  destruct (Avg front_frame) as [[x y] |]; reflexivity.
Qed.

(** C3 (as amended). For every frame with a gaze point that is not a
    sentinel, the squared distance that decides between the two branches
    of the loop is taken between that frame's point and the point of the
    frame that opened the cluster the loop is in: the last earlier frame
    on which the break branch was taken, and, for the cluster the loop was
    entered with, the front entry of the list (a point far away when that
    entry is nil or has no [Avg]). *)
Theorem distance_measured_from_cluster_opener (fixation : gmap string Z)
    (pre post : list (option Frame)) (frame : Frame) (p : Point)
    (now0 now1 : Time) :
  Avg frame = Some p ->
  outlier p = false ->
  let frames := pre ++ Some frame :: post in
  let min_msec := min_msec_of fixation in
  let distance2 :=
    float64_of_int64
      (int_mul (max_distance_of fixation) (max_distance_of fixation)) in
  let st0 := fixation_init min_msec frames now0 now1 in
  let st := fold_left (fixation_step distance2 min_msec) pre st0 in
  exists reference : Point,
    match cluster_opener distance2 min_msec st0 pre None with
    | Some opener => Avg opener = Some reference
    | None => reference = entry_point frames
    end
    /\ fixation_step distance2 min_msec st (Some frame)
       = if flt distance2 (squared_distance reference p)
         then fixation_break min_msec st (X p) (Y p) (GoTime frame)
         else fixation_stay st (GoTime frame).
Proof.
  intros Havg Hout frames min_msec distance2 st0 st.
  exists {| X := PrevX st; Y := PrevY st |}. split.
  - pose proof (anchored_fold distance2 min_msec st0 pre st0 None) as Ha.
    fold st in Ha.
    destruct (cluster_opener distance2 min_msec st0 pre None) as [opener |];
      simpl in Ha.
    + apply Ha. auto.
    + destruct Ha as (_ & Hx & Hy); [auto |].
      rewrite Hx, Hy. apply fixation_init_point.
  - unfold fixation_step. rewrite Havg, Hout. reflexivity.
Qed.

(** Frames at (100,100), (140,100) and (180,100): the third is measured
    against the first. *)
Lemma distance_measured_from_cluster_opener_witness :
  let A := {| X := 100%float; Y := 100%float |} in
  let C := {| X := 180%float; Y := 100%float |} in
  let frames := [Sample.frame_at 100 100 0; Sample.frame_at 140 100 200;
                 Sample.frame_at 180 100 400] in
  let distance2 := float64_of_int64 (int_mul 50 50) in
  let st0 := fixation_init 100 frames 0 0 in
  let st := fold_left (fixation_step distance2 100) (take 2 frames) st0 in
  exists reference : Point,
    reference = A
    /\ fixation_step distance2 100 st (Sample.frame_at 180 100 400)
       = if flt distance2 (squared_distance reference C)
         then fixation_break 100 st (X C) (Y C) (400 * Millisecond)
         else fixation_stay st (400 * Millisecond).
Proof.
  intros A C frames distance2 st0 st.
  destruct (distance_measured_from_cluster_opener ∅
              [Sample.frame_at 100 100 0; Sample.frame_at 140 100 200] []
              {| Timestamp := ""; FTime := 0; Fix := false; State := 0;
                 Raw := None; Avg := Some C; LeftEye := None; RightEye := None;
                 GoTime := 400 * Millisecond |}
              C 0 0 eq_refl eq_refl) as (reference & Href & Hstep).
  exists reference. split; [exact Href | exact Hstep].
Defined.

(** C3, as stated, fails. Frames at (100,100), (140,100) and (180,100)
    with the default radius 50: after the first two the reference point
    is still (100,100), the point of the first frame and not that of the
    frame just before; the third frame, 40 away from the one before it and
    80 away from the first, is taken as a move away, and the cluster is
    closed there. *)
Lemma distance_not_from_preceding_frame :
  let frames := [Sample.frame_at 100 100 0; Sample.frame_at 140 100 200;
                 Sample.frame_at 180 100 400] in
  let distance2 := float64_of_int64 (int_mul 50 50) in
  let st := fold_left (fixation_step distance2 100) (take 2 frames)
                      (fixation_init 100 frames 0 0) in
  PrevX st = 100%float /\ PrevY st = 100%float
  /\ moved_away distance2 st 180 100 = true
  /\ flt distance2
       (squared_distance {| X := 140; Y := 100 |} {| X := 180; Y := 100 |})
     = false
  /\ GetFixationDataList (Sample.conn frames) 0 0
     = Ok [ {| FX := 100; FY := 100; FGoTime := 0 |} ].
Proof.
  vm_compute. repeat split; reflexivity.
Qed.

(** C4 (the code at the failing input). Frames at (100,100), (102,99)
    and (101,101) within 150 ms form one cluster; the event's centroid is
    (100,100), the first point, while the running mean of the three
    points is (101,100). *)
Theorem centroid_stays_at_cluster_opener :
  GetFixationDataList
    (Sample.conn [Sample.frame_at 100 100 0; Sample.frame_at 102 99 70;
                  Sample.frame_at 101 101 150]) 0 0
  = Ok [ {| FX := 100; FY := 100; FGoTime := 0 |} ]
  /\ online_mean [100; 102; 101]%float = 101%float
  /\ online_mean [100; 99; 101]%float = 100%float.
Proof.
  vm_compute. repeat split; reflexivity.
Qed.

(** C8 (the code at the failing input). A sentinel frame at the front of
    the list gives the detector its reference point and start time: the
    event is at (0,0) and at the sentinel's time, where the same list
    without the sentinel gives an event at (10,10). *)
Theorem sentinel_front_frame_seeds_cluster :
  sentinel (Sample.frame_at 0 0 0) = true
  /\ GetFixationDataList
       (Sample.conn [Sample.frame_at 0 0 0; Sample.frame_at 10 10 200;
                     Sample.frame_at 10 10 400]) 0 0
     = Ok [ {| FX := 0; FY := 0; FGoTime := 0 |} ]
  /\ GetFixationDataList
       (Sample.conn [Sample.frame_at 10 10 200; Sample.frame_at 10 10 400]) 0 0
     = Ok [ {| FX := 10; FY := 10; FGoTime := 200 * Millisecond |} ].
Proof.
  vm_compute. repeat split; reflexivity.
Qed.

(** C9 (the code at the failing input). On a connection whose
    configuration has no fixation map, even with an empty frame list, the
    detector and the fixation region check panic on the nil pointer. *)
Theorem detector_panics_without_fixation_map :
  FrameList fresh_connection = []
  /\ Fixation (CheckConfig fresh_connection) = None
  /\ GetFixationDataList fresh_connection 0 0 = Panic NilDereference
  /\ ServeEyeTrackCheckFixation fresh_connection None 0 0 0 = Panic NilDereference.
Proof.
  repeat split; reflexivity.
Qed.

(* ===================================================================== *)
(** * Entries the consumers pass over                                     *)
(* ===================================================================== *)

Lemma heat_map_stamp_passed_over (drawImage : Image) (f : option Frame) :
  passed_over f = true -> heat_map_stamp drawImage f = [].
Proof.
  unfold passed_over, no_gaze, sentinel, heat_map_stamp.
  destruct f as [frame |]; [| reflexivity].
  destruct (Avg frame) as [p |]; [| reflexivity].
  simpl. intros ->. reflexivity.
Qed.

Lemma check_frame_passed_over (targets : list (option EyeTrackCheckPoint))
    (start : Time) (res : gmap string bool) (f : option Frame) :
  passed_over f = true -> check_frame targets start res f = res.
Proof.
  unfold passed_over, no_gaze, sentinel, check_frame.
  destruct f as [frame |]; [| reflexivity].
  destruct (Avg frame) as [p |]; [| reflexivity].
  simpl. intros ->. destruct (0 <? _); reflexivity.
Qed.

Section Skipping.

(** [skip] selects some of the entries that are passed over. *)
Variable skip : option Frame -> bool.
Hypothesis skip_passed_over : forall f, skip f = true -> passed_over f = true.

Abbreviation kept := (List.filter (fun f => negb (skip f))).

(** The renderer draws the same canvas without the skipped entries. *)
Lemma CreateHeatMapImage_without (allocates : Rectangle -> bool)
    (c : EyeTribeConnection)
    (frames : list (option Frame)) (png : option Image) :
  fst (CreateHeatMapImage allocates (set_FrameList c (kept frames)) png)
  = fst (CreateHeatMapImage allocates (set_FrameList c frames) png).
Proof.
  unfold CreateHeatMapImage, image_NewRGBA, LoadHeatMapDrawImage. simpl.
  destruct (allocates _); [| reflexivity].
  destruct (HeatMapDrawImage c) as [img |]; [| destruct png as [img |]];
    simpl; try reflexivity;
    rewrite (flat_map_without skip); auto using heat_map_stamp_passed_over.
Qed.

(** The raw region check answers the same without the skipped entries. *)
Lemma ServeEyeTrackCheck_without (c : EyeTribeConnection)
    (frames : list (option Frame)) (millisecond : option Z) (now : Time) :
  ServeEyeTrackCheck (set_FrameList c (kept frames)) millisecond now
  = ServeEyeTrackCheck (set_FrameList c frames) millisecond now.
Proof.
  unfold ServeEyeTrackCheck. simpl.
  apply (fold_left_without skip). intros res f Hf.
  apply check_frame_passed_over. auto.
Qed.

(** The detector finds the same events without the skipped entries that
    come after the front of the list. *)
Lemma GetFixationDataList_without (c : EyeTribeConnection)
    (front : option Frame) (rest : list (option Frame)) (now0 now1 : Time) :
  GetFixationDataList (set_FrameList c (front :: kept rest)) now0 now1
  = GetFixationDataList (set_FrameList c (front :: rest)) now0 now1.
Proof.
  unfold GetFixationDataList. simpl.
  destruct (Fixation (CheckConfig c)) as [fixation |]; [| reflexivity].
  f_equal. unfold fixation_run.
  replace (fixation_init (min_msec_of fixation) (front :: kept rest) now0 now1)
    with (fixation_init (min_msec_of fixation) (front :: rest) now0 now1)
    by reflexivity.
  simpl. f_equal.
  apply (fold_left_without skip). intros st f Hf.
  apply fixation_step_passed_over. auto.
Qed.

(** So does the region check on fixations. *)
Lemma ServeEyeTrackCheckFixation_without (c : EyeTribeConnection)
    (front : option Frame) (rest : list (option Frame))
    (millisecond : option Z) (now now0 now1 : Time) :
  ServeEyeTrackCheckFixation (set_FrameList c (front :: kept rest))
    millisecond now now0 now1
  = ServeEyeTrackCheckFixation (set_FrameList c (front :: rest))
      millisecond now now0 now1.
Proof.
  unfold ServeEyeTrackCheckFixation.
  rewrite GetFixationDataList_without. reflexivity.
Qed.

End Skipping.

(** The only panics of the queries are the renderer's on a canvas that is
    refused and the detector's on a missing fixation map; no entry of the
    frame list causes one. *)
Lemma queries_panic_only_by_canvas_or_fixation_map
    (allocates : Rectangle -> bool) (c : EyeTribeConnection)
    (png : option Image) (now0 now1 : Time) :
  is_Panic (fst (CreateHeatMapImage allocates c png))
  = negb (allocates (image_Rect 0 0 (ScreenWidth c) (ScreenHeight c)))
  /\ is_Panic (GetFixationDataList c now0 now1)
     = match Fixation (CheckConfig c) with None => true | Some _ => false end.
Proof.
  unfold CreateHeatMapImage, image_NewRGBA, LoadHeatMapDrawImage,
    GetFixationDataList.
  split.
  - destruct (allocates _); [| reflexivity].
    destruct (HeatMapDrawImage c); [| destruct png]; reflexivity.
  - destruct (Fixation (CheckConfig c)); reflexivity.
Qed.

(** C10 (as amended). An entry that is nil or has no [Avg] is passed over
    by each consumer before a coordinate is read and causes no panic:
    whatever the entries of the list, the renderer panics exactly when
    the library refuses its canvas, the detector exactly when there is no
    fixation map, and the raw region check never.  The renderer and the
    raw region check return the same as on the list without such entries,
    and the detector and the fixation region check return the same as on
    the list without such entries after its front. *)
Theorem no_gaze_entries_passed_over (allocates : Rectangle -> bool)
    (c : EyeTribeConnection)
    (front : option Frame) (rest : list (option Frame))
    (png : option Image) (millisecond : option Z) (now now0 now1 : Time) :
  let with_gaze := List.filter (fun f => negb (no_gaze f)) in
  is_Panic (fst (CreateHeatMapImage allocates (set_FrameList c (front :: rest)) png))
  = negb (allocates (image_Rect 0 0 (ScreenWidth c) (ScreenHeight c)))
  /\ is_Panic (GetFixationDataList (set_FrameList c (front :: rest)) now0 now1)
     = match Fixation (CheckConfig c) with None => true | Some _ => false end
  /\ fst (CreateHeatMapImage allocates
            (set_FrameList c (with_gaze (front :: rest))) png)
     = fst (CreateHeatMapImage allocates (set_FrameList c (front :: rest)) png)
  /\ ServeEyeTrackCheck (set_FrameList c (with_gaze (front :: rest))) millisecond now
     = ServeEyeTrackCheck (set_FrameList c (front :: rest)) millisecond now
  /\ GetFixationDataList (set_FrameList c (front :: with_gaze rest)) now0 now1
     = GetFixationDataList (set_FrameList c (front :: rest)) now0 now1
  /\ ServeEyeTrackCheckFixation (set_FrameList c (front :: with_gaze rest))
       millisecond now now0 now1
     = ServeEyeTrackCheckFixation (set_FrameList c (front :: rest))
         millisecond now now0 now1.
Proof.
  assert (Hskip : forall f, no_gaze f = true -> passed_over f = true).
  { intros f Hf. unfold passed_over. rewrite Hf. reflexivity. }
  intros with_gaze. subst with_gaze.
  destruct (queries_panic_only_by_canvas_or_fixation_map allocates
              (set_FrameList c (front :: rest)) png now0 now1) as (Hr & Hd).
  repeat split.
  - exact Hr.
  - exact Hd.
  - apply (CreateHeatMapImage_without no_gaze Hskip allocates).
  - apply (ServeEyeTrackCheck_without no_gaze Hskip).
  - apply (GetFixationDataList_without no_gaze Hskip).
  - apply (ServeEyeTrackCheckFixation_without no_gaze Hskip).
Qed.

(** C10, as stated, fails: a nil entry at the front of the list changes
    what the detector finds.  With it, the first frame with a gaze point
    is taken as a move away from the far default point and is not counted
    in the cluster, so the cluster of two frames that follows is too
    small to be reported when the gaze moves on. *)
Lemma nil_front_entry_changes_fixations :
  ~ (forall (c : EyeTribeConnection) (pre post : list (option Frame))
            (f : option Frame) (now0 now1 : Time),
        no_gaze f = true ->
        GetFixationDataList (set_FrameList c (pre ++ f :: post)) now0 now1
        = GetFixationDataList (set_FrameList c (pre ++ post)) now0 now1).
Proof.
  intros H.
  specialize (H (Sample.conn []) []
                [Sample.frame_at 10 10 0; Sample.frame_at 10 10 200;
                 Sample.frame_at 500 500 400] None 0 0 eq_refl).
  vm_compute in H. discriminate H.
Qed.

(** A front entry without [Avg] does the same. *)
Lemma avg_less_front_entry_changes_fixations :
  no_gaze (Sample.frame_no_avg 0) = true
  /\ GetFixationDataList
       (Sample.conn [Sample.frame_no_avg 0; Sample.frame_at 10 10 0;
                     Sample.frame_at 10 10 200; Sample.frame_at 500 500 400]) 0 0
     = Ok []
  /\ GetFixationDataList
       (Sample.conn [Sample.frame_at 10 10 0; Sample.frame_at 10 10 200;
                     Sample.frame_at 500 500 400]) 0 0
     = Ok [ {| FX := 10; FY := 10; FGoTime := 0 |} ].
Proof.
  vm_compute. repeat split; reflexivity.
Qed.

(** On a list whose entries are all passed over (nil, without [Avg], or
    sentinel), the queries answer with nothing: no stamp (given a canvas),
    no region, and, given a fixation map, no fixation. *)
Lemma queries_empty_on_sparse_list (allocates : Rectangle -> bool)
    (c : EyeTribeConnection)
    (frames : list (option Frame)) (fixation : gmap string Z)
    (png : Image) (millisecond : option Z) (now now0 now1 : Time) :
  Forall (fun f => passed_over f = true) frames ->
  Fixation (CheckConfig c) = Some fixation ->
  allocates (image_Rect 0 0 (ScreenWidth c) (ScreenHeight c)) = true ->
  (exists img,
     fst (CreateHeatMapImage allocates (set_FrameList c frames) (Some png)) = Ok img
     /\ stamps img = [])
  /\ ServeEyeTrackCheck (set_FrameList c frames) millisecond now = ∅
  /\ GetFixationDataList (set_FrameList c frames) now0 now1 = Ok []
  /\ ServeEyeTrackCheckFixation (set_FrameList c frames) millisecond now now0 now1
     = Ok ∅.
Proof.
  intros Hall Hfix Hcanvas.
  assert (Hnone : List.filter (fun f => negb (passed_over f)) frames = []).
  { induction Hall as [| f more Hf _ IH]; [reflexivity |].
    simpl. rewrite Hf. exact IH. }
  assert (Hdet : GetFixationDataList (set_FrameList c frames) now0 now1 = Ok []).
  { unfold GetFixationDataList. simpl. rewrite Hfix. f_equal.
    unfold fixation_run.
    rewrite <- (fold_left_without passed_over), Hnone by
      (intros st f Hf; apply fixation_step_passed_over; exact Hf).
    simpl. unfold fixation_flush.
    destruct (fixation_init_result (min_msec_of fixation) frames now0 now1)
      as (-> & ->).
    reflexivity. }
  repeat split.
  - rewrite <- (CreateHeatMapImage_without passed_over) by auto.
    rewrite Hnone. unfold CreateHeatMapImage, image_NewRGBA, LoadHeatMapDrawImage.
    simpl. rewrite Hcanvas.
    destruct (HeatMapDrawImage c); eexists; split; reflexivity.
  - rewrite <- (ServeEyeTrackCheck_without passed_over) by auto.
    rewrite Hnone. reflexivity.
  - exact Hdet.
  - unfold ServeEyeTrackCheckFixation. rewrite Hdet. reflexivity.
Qed.

(* ===================================================================== *)
(** * The region checks: the last point decides                           *)
(* ===================================================================== *)

(** After the inner loop, a name carried by a target holds the answer of
    the last target of that name for this point, whatever it held before;
    any other name is left alone. *)
Lemma check_targets_lookup (targets : list (option EyeTrackCheckPoint))
    (x y : float) (name : string) :
  forall res : gmap string bool,
    check_targets targets x y res !! name
    = match last_named targets name with
      | Some v => Some (in_target v x y)
      | None => res !! name
      end.
Proof.
  unfold check_targets.
  induction targets as [| v more IH]; intros res; [reflexivity |].
  simpl. rewrite IH.
  destruct (last_named more name) as [w |]; [reflexivity |].
  destruct v as [v |]; [| reflexivity].
  destruct (String.eqb_spec (Name v) name) as [Heq | Hne].
  - rewrite <- Heq. apply lookup_insert_eq.
  - apply lookup_insert_ne. exact Hne.
Qed.

(** The answers written for a point replace those written for an earlier
    point. *)
Lemma check_targets_overwrites (targets : list (option EyeTrackCheckPoint))
    (x y x' y' : float) (res : gmap string bool) :
  check_targets targets x y (check_targets targets x' y' res)
  = check_targets targets x y res.
Proof.
  apply map_eq. intros name. rewrite !check_targets_lookup.
  destruct (last_named targets name); reflexivity.
Qed.

Lemma check_frame_evaluated (targets : list (option EyeTrackCheckPoint))
    (start : Time) (res : gmap string bool) (f : option Frame) :
  check_frame targets start res f
  = match evaluated start f with
    | Some p => check_targets targets (X p) (Y p) res
    | None => res
    end.
Proof.
  unfold check_frame, evaluated.
  destruct f as [frame |]; [| reflexivity].
  destruct (Avg frame) as [p |]; [| reflexivity].
  destruct (0 <? _); [reflexivity |].
  destruct (outlier p); reflexivity.
Qed.

(** The raw region check answers for the last evaluated point alone: an
    earlier point inside a region is forgotten when a later point is
    outside it, and without any evaluated point the answer has no key. *)
Lemma ServeEyeTrackCheck_last_point (c : EyeTribeConnection)
    (millisecond : option Z) (now : Time) :
  ServeEyeTrackCheck c millisecond now
  = match last_evaluated (window_start millisecond now) (FrameList c) with
    | Some p => check_targets (TargetList (CheckConfig c)) (X p) (Y p) ∅
    | None => ∅
    end.
Proof.
  unfold ServeEyeTrackCheck.
  generalize (∅ : gmap string bool) as res.
  induction (FrameList c) as [| f more IH]; intros res; [reflexivity |].
  simpl. rewrite IH, check_frame_evaluated.
  destruct (last_evaluated _ more) as [p |]; [| reflexivity].
  destruct (evaluated _ f) as [q |]; [| reflexivity].
  apply check_targets_overwrites.
Qed.

(** C1 (the code at the failing input). With the one region
    [0,50] x [0,50] and two frames in the window, at (10,10) and then at
    (100,100), the first point is inside the region and the raw check
    answers false; with two fixations, at (10,10) and then at (100,100),
    the fixation check answers false as well.  The point (50,50), on the
    corner of the region, is answered true when it is the only one. *)
Theorem region_check_forgets_earlier_point :
  let now := 1000 * Millisecond in
  in_target Sample.logo 10 10 = true
  /\ ServeEyeTrackCheck
       (Sample.conn [Sample.frame_at 10 10 900; Sample.frame_at 100 100 950])
       None now !! "logo"%string = Some false
  /\ GetFixationDataList
       (Sample.conn [Sample.frame_at 10 10 0; Sample.frame_at 10 10 200;
                     Sample.frame_at 100 100 400; Sample.frame_at 100 100 600;
                     Sample.frame_at 100 100 800]) now now
     = Ok [ {| FX := 10; FY := 10; FGoTime := 0 |};
            {| FX := 100; FY := 100; FGoTime := 400 * Millisecond |} ]
  /\ (exists answers : gmap string bool,
        ServeEyeTrackCheckFixation
          (Sample.conn [Sample.frame_at 10 10 0; Sample.frame_at 10 10 200;
                        Sample.frame_at 100 100 400; Sample.frame_at 100 100 600;
                        Sample.frame_at 100 100 800]) None now now now
        = Ok answers
        /\ answers !! "logo"%string = Some false)
  /\ ServeEyeTrackCheck (Sample.conn [Sample.frame_at 50 50 900]) None now
       !! "logo"%string = Some true.
Proof.
  intros now. repeat split; try (vm_compute; reflexivity).
  eexists. split; [reflexivity | vm_compute; reflexivity].
Qed.

(* ===================================================================== *)
(** * The ingestion loop                                                  *)
(* ===================================================================== *)

(** A discardable message yields the nil frame and the nil error. *)
Lemma PullOneFrame_discardable (msg : OneFrameMessage) (now : Time) :
  discardable msg = true -> PullOneFrame (Some msg) now = Ok None.
Proof.
  unfold discardable, PullOneFrame.
  destruct (negb (StatusCode msg =? 200)); [reflexivity |].
  destruct (String.eqb (Category msg) "heartbeat"); [reflexivity |].
  destruct (Values msg !! "frame"%string); [discriminate | reflexivity].
Qed.

(** A message with status 200, another category than heartbeat and a
    frame yields that frame, stamped with the clock. *)
Lemma PullOneFrame_frame (msg : OneFrameMessage) (frame : Frame) (now : Time) :
  StatusCode msg = 200 ->
  String.eqb (Category msg) "heartbeat" = false ->
  Values msg !! "frame"%string = Some (Some frame) ->
  PullOneFrame (Some msg) now = Ok (Some (set_GoTime frame now)).
Proof.
  intros Hs Hc Hf. unfold PullOneFrame. rewrite Hs, Hc, Hf. reflexivity.
Qed.

(** The loop hands whatever [PullOneFrame] returned without an error to
    [AddOneFrame]: after a discardable message the task goes on, and the
    nil frame has been appended to the frame list like any frame. *)
Lemma discardable_message_appends_nil (c : EyeTribeConnection) (numFrames : Z)
    (msg : OneFrameMessage) (now : Time) :
  discardable msg = true ->
  1 <= numFrames ->
  Z.of_nat (length (FrameList c)) <= numFrames ->
  exists c',
    pull_iteration c numFrames (Incoming (Some msg) now) = Ok (false, c')
    /\ (Z.of_nat (length (FrameList c)) = numFrames ->
        exists oldest rest,
          FrameList c = oldest :: rest /\ FrameList c' = rest ++ [None])
    /\ (Z.of_nat (length (FrameList c)) < numFrames ->
        FrameList c' = FrameList c ++ [None]).
Proof.
  intros Hd Hn Hlen. unfold pull_iteration.
  rewrite (PullOneFrame_discardable msg now Hd).
  destruct (AddOneFrame_within numFrames Hn c None Hlen)
    as (c' & Hadd & _ & Hfull & Hroom).
  exists c'. rewrite Hadd. simpl. repeat split; assumption.
Qed.

(** After a message that carries a frame the task goes on and the frame,
    stamped with the clock, is at the back of the list, the front entry
    having been evicted when the list was full. *)
Lemma frame_message_appends_stamped_frame (c : EyeTribeConnection)
    (numFrames : Z) (msg : OneFrameMessage) (frame : Frame) (now : Time) :
  StatusCode msg = 200 ->
  String.eqb (Category msg) "heartbeat" = false ->
  Values msg !! "frame"%string = Some (Some frame) ->
  1 <= numFrames ->
  Z.of_nat (length (FrameList c)) <= numFrames ->
  exists c',
    pull_iteration c numFrames (Incoming (Some msg) now) = Ok (false, c')
    /\ GoTime (set_GoTime frame now) = now
    /\ (Z.of_nat (length (FrameList c)) = numFrames ->
        exists oldest rest,
          FrameList c = oldest :: rest
          /\ FrameList c' = rest ++ [Some (set_GoTime frame now)])
    /\ (Z.of_nat (length (FrameList c)) < numFrames ->
        FrameList c' = FrameList c ++ [Some (set_GoTime frame now)]).
Proof.
  intros Hs Hc Hf Hn Hlen. unfold pull_iteration.
  rewrite (PullOneFrame_frame msg frame now Hs Hc Hf).
  destruct (AddOneFrame_within numFrames Hn c (Some (set_GoTime frame now)) Hlen)
    as (c' & Hadd & _ & Hfull & Hroom).
  exists c'. rewrite Hadd. simpl. repeat split; assumption.
Qed.

(** A decode error ends the task and leaves the frame list as it was. *)
Lemma decode_error_ends_task (c : EyeTribeConnection) (numFrames : Z)
    (now : Time) (more : list PullEvent) :
  pull_loop c numFrames (Incoming None now :: more) = Ok (true, c).
Proof.
  reflexivity.
Qed.

(** C2 (the code at the failing input). A heartbeat acknowledgement is a
    discardable message and does not end the task, but the frame list
    does not stay as it was: with room left, a nil entry is appended and
    the list is one longer; at capacity, the oldest frame is evicted for
    the nil entry. *)
Theorem heartbeat_reply_appends_nil_frame :
  let now := 1000 * Millisecond in
  discardable Sample.heartbeat_reply = true
  /\ pull_loop (Sample.conn [Sample.frame_at 10 10 900]) 3
       [Incoming (Some Sample.heartbeat_reply) now]
     = Ok (false, Sample.conn [Sample.frame_at 10 10 900; None])
  /\ pull_loop (Sample.conn [Sample.frame_at 10 10 900]) 1
       [Incoming (Some Sample.heartbeat_reply) now]
     = Ok (false, Sample.conn [None]).
Proof.
  vm_compute. repeat split; reflexivity.
Qed.

(* ===================================================================== *)
(** * The status handshake                                                *)
(* ===================================================================== *)


(** A heartbeat interval between zero and one is refused as well: the
    conversion to an integer truncates it to zero. *)
Lemma connect_refuses_fractional_heartbeat :
  CreateServerConnection (Sample.answering (Sample.status_reply (JNumber 0.5)))
  = Err (ErrInvalidHeartbeat 0).
Proof.
  vm_compute. reflexivity.
Qed.

(** An answer that is not calibrated and has a numeric field of another
    JSON type is not answered with an error: the type assertion on the
    field comes first. *)
Lemma connect_panics_before_calibration_test :
  let reply := Sample.status_reply (JNumber 3000) in
  let values := <["screenresw"%string := JString "1920"]>
                  (<["iscalibrated"%string := JBool false]> (RValues reply)) in
  let net := Sample.answering
               {| RCategory := RCategory reply; RRequest := RRequest reply;
                  RStatusCode := RStatusCode reply; RValues := values |} in
  refused net = true /\ CreateServerConnection net = Panic TypeAssertion.
Proof.
  vm_compute. split; reflexivity.
Qed.


(** A numeric field that is present with another JSON type is not
    answered with an error: the type assertion panics. *)
Lemma connect_panics_on_non_numeric_field :
  CreateServerConnection
    (Sample.answering (Sample.status_reply (JString "3000")))
  = Panic TypeAssertion.
Proof.
  vm_compute. reflexivity.
Qed.

(* ===================================================================== *)
(** * The region checks: what is answered                                 *)
(* ===================================================================== *)

(** X1. The raw region check answers a name exactly when some entry of
    the frame list is evaluated and some non-nil target carries the name;
    the answer is then whether the last evaluated point lies in the last
    target of that name. *)
Theorem ServeEyeTrackCheck_answer (c : EyeTribeConnection)
    (millisecond : option Z) (now : Time) (name : string) :
  ServeEyeTrackCheck c millisecond now !! name
  = match last_evaluated (window_start millisecond now) (FrameList c),
          last_named (TargetList (CheckConfig c)) name with
    | Some p, Some v => Some (in_target v (X p) (Y p))
    | _, _ => None
    end.
Proof.
  rewrite ServeEyeTrackCheck_last_point.
  destruct (last_evaluated _ (FrameList c)) as [p |].
  - rewrite check_targets_lookup.
    destruct (last_named _ name); [reflexivity | apply lookup_empty].
  - apply lookup_empty.
Qed.

Lemma fold_check_fixation_last (targets : list (option EyeTrackCheckPoint))
    (start : Time) (events : list FixateData) :
  forall res : gmap string bool,
    fold_left (check_fixation targets start) events res
    = match last_checked start events with
      | Some e => check_targets targets (FX e) (FY e) res
      | None => res
      end.
Proof.
  induction events as [| e more IH]; intros res; [reflexivity |].
  simpl. rewrite IH. unfold check_fixation.
  destruct (last_checked start more) as [e' |].
  - destruct (0 <? Time_Sub start (FGoTime e)); [reflexivity |].
    apply check_targets_overwrites.
  - destruct (0 <? Time_Sub start (FGoTime e)); reflexivity.
Qed.

(** X2. The region check on fixations fails only as the detector does,
    and otherwise answers for the last fixation in the window alone: a
    name is answered exactly when there is such a fixation and a non-nil
    target of that name, with whether that fixation's point lies in the
    last target of the name. *)
Theorem ServeEyeTrackCheckFixation_answer (c : EyeTribeConnection)
    (millisecond : option Z) (now now0 now1 : Time) :
  exists answer : list FixateData -> gmap string bool,
    ServeEyeTrackCheckFixation c millisecond now now0 now1
    = (events <- GetFixationDataList c now0 now1 ;; Ok (answer events))
    /\ forall (events : list FixateData) (name : string),
         answer events !! name
         = match last_checked (window_start millisecond now) events,
                 last_named (TargetList (CheckConfig c)) name with
           | Some e, Some v => Some (in_target v (FX e) (FY e))
           | _, _ => None
           end.
Proof.
  exists (fun events =>
            fold_left (check_fixation (TargetList (CheckConfig c))
                                      (window_start millisecond now)) events ∅).
  split; [reflexivity |].
  intros events name. rewrite fold_check_fixation_last.
  destruct (last_checked _ events) as [e |].
  - rewrite check_targets_lookup.
    destruct (last_named _ name); [reflexivity | apply lookup_empty].
  - apply lookup_empty.
Qed.

(** X3. With a window of [delta] milliseconds (10000 when the form value
    does not parse), a frame with a gaze point that is not a sentinel is
    checked against the targets exactly when it arrived no earlier than
    [delta] milliseconds before the request; a frame that arrived exactly
    then is still checked. *)
Theorem check_frame_window (targets : list (option EyeTrackCheckPoint))
    (millisecond : option Z) (now : Time) (res : gmap string bool)
    (frame : Frame) (p : Point) :
  - 9000000000000 <= default 10000 millisecond <= 9000000000000 ->
  Avg frame = Some p ->
  outlier p = false ->
  check_frame targets (window_start millisecond now) res (Some frame)
  = if GoTime frame <? now - default 10000 millisecond * 1000000
    then res
    else check_targets targets (X p) (Y p) res.
Proof.
  intros Hdelta Havg Hout.
  unfold check_frame. rewrite Havg, Hout, Time_Sub_pos.
  unfold window_start, Time_Add, int_mul, int_neg, Millisecond.
  change (10 * 1000) with 10000.
  rewrite (wrap64_small (- default 10000 millisecond))
    by (unfold int64_min, int64_max; lia).
  rewrite wrap64_small by (unfold int64_min, int64_max; lia).
  replace (now + - default 10000 millisecond * 1000000)
    with (now - default 10000 millisecond * 1000000) by lia.
  reflexivity.
Qed.

(** A frame that arrived exactly ten seconds before the request. *)
Lemma check_frame_window_witness :
  check_frame [Some Sample.logo] (window_start None (10000 * Millisecond)) ∅
    (Sample.frame_at 10 10 0)
  = if 0 * Millisecond <? 10000 * Millisecond - default 10000 None * 1000000
    then ∅
    else check_targets [Some Sample.logo] 10 10 ∅.
Proof.
  apply (check_frame_window [Some Sample.logo] None (10000 * Millisecond) ∅
           {| Timestamp := ""; FTime := 0; Fix := false; State := 0;
              Raw := None; Avg := Some {| X := 10; Y := 10 |};
              LeftEye := None; RightEye := None; GoTime := 0 * Millisecond |}
           {| X := 10; Y := 10 |}).
  - simpl. lia.
  - reflexivity.
  - reflexivity.
Defined.

(* ===================================================================== *)
(** * The detector: clock, order and duration of the events               *)
(* ===================================================================== *)

Section DetectorRuns.

Variable distance2 : float.
Variable min_msec : Z.

Abbreviation loop_body := (fixation_step distance2 min_msec).

Lemma same_but_current_step (st st' : Fixating) (f : option Frame) :
  same_but_current st st' ->
  same_but_current (loop_body st f) (loop_body st' f).
Proof.
  destruct st as [px py pt ct chk ax ay n ns res].
  destruct st' as [px' py' pt' ct' chk' ax' ay' n' ns' res'].
  unfold same_but_current. simpl.
  intros (-> & -> & -> & -> & -> & -> & -> & -> & -> & Hct).
  unfold fixation_step, moved_away, fixation_break, fixation_stay. simpl.
  destruct f as [frame |]; [| repeat split; auto].
  destruct (Avg frame) as [p |]; [| repeat split; auto].
  destruct (outlier p); [repeat split; auto |].
  destruct (flt distance2 _); simpl; repeat split; auto;
    intros H; congruence.
Qed.

Lemma same_but_current_fold (frames : list (option Frame)) :
  forall st st' : Fixating,
    same_but_current st st' ->
    same_but_current (fold_left loop_body frames st) (fold_left loop_body frames st').
Proof.
  induction frames as [| f more IH]; intros st st' H; [exact H |].
  simpl. apply IH. apply same_but_current_step. exact H.
Qed.

Lemma same_but_current_flush (st st' : Fixating) :
  same_but_current st st' -> fixation_flush st = fixation_flush st'.
Proof.
  destruct st as [px py pt ct chk ax ay n ns res].
  destruct st' as [px' py' pt' ct' chk' ax' ay' n' ns' res'].
  unfold same_but_current, fixation_flush. simpl.
  intros (-> & -> & -> & -> & -> & -> & -> & -> & -> & Hct).
  destruct (Z.ltb_spec 0 n') as [Hpos | Hzero]; [| reflexivity].
  rewrite Hct by lia. reflexivity.
Qed.

(** The events appended so far are in the order of their times and none
    is later than the start of the cluster that is open, as long as the
    frames still to come arrive in order and not before that start. *)
Lemma result_sorted_fold (frames : list (option Frame)) :
  forall st : Fixating,
    StronglySorted Z.le (map FGoTime (result st)) ->
    Forall (fun t => t <= PrevTime st) (map FGoTime (result st)) ->
    StronglySorted Z.le (PrevTime st :: arrival_times frames) ->
    StronglySorted Z.le (map FGoTime (result (fold_left loop_body frames st)))
    /\ Forall (fun t => t <= PrevTime (fold_left loop_body frames st))
              (map FGoTime (result (fold_left loop_body frames st))).
Proof.
  induction frames as [| f more IH]; intros st Hsorted Hbefore Hcoming.
  - split; assumption.
  - simpl. apply StronglySorted_cons in Hcoming as [Hfrom Hrest].
    unfold arrival_times in Hfrom, Hrest. simpl in Hfrom, Hrest.
    fold (arrival_times more) in Hfrom, Hrest.
    apply Forall_app in Hfrom as [Hf Hmore].
    apply StronglySorted_app in Hrest as (Hcross & _ & Hrest).
    destruct (fixation_step_cases distance2 min_msec st f)
      as [(_ & _ & Hs) | [(_ & _ & frame & _ & Hs) | (frame & p & -> & _ & _ & _ & Hs)]];
      rewrite Hs.
    + apply IH; try assumption. apply StronglySorted_cons. split; assumption.
    + apply IH; try assumption. apply StronglySorted_cons. split; assumption.
    + assert (Hle : PrevTime st <= GoTime frame).
      { apply Forall_cons in Hf as [Hle _]. exact Hle. }
      apply IH; simpl.
      * destruct (_ && _); [| assumption].
        rewrite map_app. simpl. apply StronglySorted_app. repeat split.
        -- intros t1 t2 H1 H2. apply list_elem_of_singleton in H2 as ->.
           rewrite Forall_forall in Hbefore. apply Hbefore. exact H1.
        -- assumption.
        -- repeat constructor.
      * assert (Hold : Forall (fun t => t <= GoTime frame) (map FGoTime (result st))).
        { eapply Forall_impl; [exact Hbefore |]. simpl. intros t Ht. lia. }
        destruct (_ && _); [| assumption].
        rewrite map_app. apply Forall_app. split; [assumption |].
        simpl. repeat constructor. exact Hle.
      * apply StronglySorted_cons. split; [| assumption].
        apply Forall_forall. intros t Ht.
        apply (Hcross (GoTime frame) t); [apply list_elem_of_singleton; reflexivity | exact Ht].
Qed.

End DetectorRuns.

(** X4. The detector's result does not depend on the second reading of
    the clock, and not on the clock at all when the front entry of the
    frame list is a frame. *)
Theorem GetFixationDataList_clock (c : EyeTribeConnection)
    (front_frame : Frame) (rest : list (option Frame))
    (now0 now1 now0' now1' : Time) :
  GetFixationDataList c now0 now1 = GetFixationDataList c now0 now1'
  /\ GetFixationDataList (set_FrameList c (Some front_frame :: rest)) now0 now1
     = GetFixationDataList (set_FrameList c (Some front_frame :: rest)) now0' now1'.
Proof.
  unfold GetFixationDataList. simpl. split.
  - destruct (Fixation (CheckConfig c)) as [fixation |]; [| reflexivity].
    f_equal. unfold fixation_run.
    apply same_but_current_flush, same_but_current_fold.
    unfold fixation_init, same_but_current.
    destruct (FrameList c) as [| [frame |] more]; simpl.
    + repeat split; auto. intros H. congruence.
    + destruct (Avg frame); simpl; repeat split; auto.
    + repeat split; auto. intros H. congruence.
  - destruct (Fixation (CheckConfig c)) as [fixation |]; [| reflexivity].
    f_equal.
Qed.

(** X5. When the frames of the list arrived in the order of the list,
    none of them before the time the detector starts from (the arrival of
    the front frame, or the clock when the front entry is nil), the
    events are returned oldest first. *)
Theorem fixation_events_oldest_first (c : EyeTribeConnection)
    (now0 now1 : Time) (events : list FixateData) :
  GetFixationDataList c now0 now1 = Ok events ->
  StronglySorted Z.le
    (entry_time (FrameList c) now0 :: arrival_times (FrameList c)) ->
  StronglySorted Z.le (map FGoTime events).
Proof.
  unfold GetFixationDataList. intros Hrun Hchrono.
  destruct (Fixation (CheckConfig c)) as [fixation |]; [| discriminate].
  injection Hrun as <-. unfold fixation_run.
  set (min_msec := min_msec_of fixation).
  set (distance2 := float64_of_int64 _).
  set (st0 := fixation_init min_msec (FrameList c) now0 now1).
  destruct (fixation_init_result min_msec (FrameList c) now0 now1) as (Hres & _).
  fold st0 in Hres.
  destruct (result_sorted_fold distance2 min_msec (FrameList c) st0)
    as (Hsorted & Hbefore).
  - rewrite Hres. constructor.
  - rewrite Hres. constructor.
  - unfold st0. rewrite fixation_init_PrevTime. exact Hchrono.
  - unfold fixation_flush. destruct (_ && _); [| exact Hsorted].
    rewrite map_app. simpl. apply StronglySorted_app. repeat split.
    + intros t1 t2 H1 H2. apply list_elem_of_singleton in H2 as ->.
      rewrite Forall_forall in Hbefore. apply Hbefore. exact H1.
    + exact Hsorted.
    + repeat constructor.
Qed.

(** Frames at one point, 0, 200 and 400 ms, then frames elsewhere. *)
Lemma fixation_events_oldest_first_witness :
  let c := Sample.conn [Sample.frame_at 10 10 0; Sample.frame_at 10 10 200;
                        Sample.frame_at 100 100 400; Sample.frame_at 100 100 600;
                        Sample.frame_at 100 100 800] in
  StronglySorted Z.le
    (map FGoTime [ {| FX := 10; FY := 10; FGoTime := 0 |};
                   {| FX := 100; FY := 100; FGoTime := 400 * Millisecond |} ]).
Proof.
  intros c.
  apply (fixation_events_oldest_first c 0 0).
  - vm_compute. reflexivity.
  - simpl. unfold Millisecond. repeat constructor; lia.
Defined.

(** A cluster that counts as a fixation has outlasted [min_msec]. *)
Lemma reported_outlasts (min_msec : Z) (closed : Cluster * option Frame) :
  reported min_msec closed = true -> outlasts min_msec closed.
Proof.
  destruct closed as (cl & [frame |]); unfold reported, outlasts, stay_count.
  - intros H. apply andb_true_iff in H as (Hlate & Hcount).
    apply Z.ltb_lt in Hlate. split; [exact Hlate |].
    destruct (stayed cl) as [| f0 [| f1 more]];
      [discriminate Hcount | discriminate Hcount | simpl; lia].
  - destruct (last (stayed cl)) as [frame |]; [| discriminate].
    intros H. apply andb_true_iff in H as (_ & Hlate).
    apply Z.ltb_lt in Hlate. exists frame. split; [reflexivity | exact Hlate].
Qed.

(** X6. Every fixation the detector reports is the event of a cluster of
    the frame list for which more than [min msec] milliseconds lie
    between the time the event carries, the opening of the cluster, and
    the arrival of a later frame: for a cluster closed by a frame, the
    frame that closed it, with at least two frames having stayed in the
    cluster; for the cluster still open at the end of the list, the last
    frame that stayed in it.  At a break the test is on the arrival of
    the closing frame, not on the frames of the cluster. *)
Theorem fixation_events_outlast_min_msec (c : EyeTribeConnection)
    (now0 now1 : Time) (events : list FixateData) (e : FixateData) :
  GetFixationDataList c now0 now1 = Ok events ->
  In e events ->
  exists (fixation : gmap string Z) (cl : Cluster) (closer : option Frame),
    Fixation (CheckConfig c) = Some fixation
    /\ In (cl, closer)
          (clusters
             (float64_of_int64
                (int_mul (max_distance_of fixation) (max_distance_of fixation)))
             (FrameList c) now0)
    /\ e = cluster_event cl
    /\ outlasts (min_msec_of fixation) (cl, closer).
Proof.
  unfold GetFixationDataList. intros Hrun Hin.
  destruct (Fixation (CheckConfig c)) as [fixation |]; [| discriminate].
  injection Hrun as <-.
  rewrite fixation_run_clusters in Hin. unfold fixations_of in Hin.
  apply in_map_iff in Hin as ((cl & closer) & <- & Hin).
  apply filter_In in Hin as (Hin & Hrep).
  exists fixation, cl, closer.
  repeat split; [exact Hin | apply reported_outlasts; exact Hrep].
Qed.

(** Three frames at one point, at 0, 10 and 20 ms, and a frame elsewhere
    at 500 ms: with the default 100 ms the cluster of the three frames is
    reported, closed by the frame at 500 ms. *)
Lemma fixation_events_outlast_min_msec_witness :
  let c := Sample.conn [Sample.frame_at 100 100 0; Sample.frame_at 100 100 10;
                        Sample.frame_at 100 100 20; Sample.frame_at 900 900 500] in
  let e := {| FX := 100; FY := 100; FGoTime := 0 |} in
  exists (fixation : gmap string Z) (cl : Cluster) (closer : option Frame),
    Fixation (CheckConfig c) = Some fixation
    /\ In (cl, closer)
          (clusters
             (float64_of_int64
                (int_mul (max_distance_of fixation) (max_distance_of fixation)))
             (FrameList c) 0)
    /\ e = cluster_event cl
    /\ outlasts (min_msec_of fixation) (cl, closer).
Proof.
  intros c e.
  apply (fixation_events_outlast_min_msec c 0 0 [e] e).
  - vm_compute. reflexivity.
  - left. reflexivity.
Defined.

(** The frames of a cluster closed by a frame need not span [min msec]
    themselves: here they span 20 ms, and the event is reported. *)
Lemma short_cluster_reported_at_late_break :
  GetFixationDataList
    (Sample.conn [Sample.frame_at 100 100 0; Sample.frame_at 100 100 10;
                  Sample.frame_at 100 100 20; Sample.frame_at 900 900 500]) 0 0
  = Ok [ {| FX := 100; FY := 100; FGoTime := 0 |} ].
Proof.
  vm_compute. reflexivity.
Qed.

Section DetectorCounts.

Variable distance2 : float.
Variable min_msec : Z.

Lemma counted_step (st : Fixating) (n : nat) (f : option Frame) :
  counted st n ->
  counted (fixation_step distance2 min_msec st f)
          (n + (if valid f then 1 else 0)).
Proof.
  intros (s & Hs & Hn). unfold valid.
  destruct (fixation_step_cases distance2 min_msec st f)
    as [(_ & Hv & Hst) | [(_ & Hv & frame & _ & Hst) | (frame & p & _ & _ & Hv & _ & Hst)]];
    rewrite Hst, Hv; unfold fixation_stay, fixation_break; simpl.
  - exists s. split; [exact Hs | lia].
  - exists (S s). simpl. split; [| lia].
    rewrite Hs, wrap64_succ. f_equal. lia.
  - exists 0%nat. simpl. split; [reflexivity |].
    destruct (Time_Sub (check_time st) (GoTime frame) <? 0); simpl; [| lia].
    destruct (Z.ltb_spec 1 (fixate_count st)) as [Hmany | Hfew]; [| lia].
    rewrite length_app. simpl.
    destruct s as [| [| s]]; [rewrite Hs in Hmany; vm_compute in Hmany; discriminate
                             | rewrite Hs in Hmany; vm_compute in Hmany; discriminate
                             | lia].
Qed.

Lemma counted_fold (l : list (option Frame)) :
  forall (st : Fixating) (n : nat),
    counted st n ->
    counted (fold_left (fixation_step distance2 min_msec) l st)
            (n + length (List.filter valid l)).
Proof.
  induction l as [| f more IH]; intros st n Hst.
  - simpl. replace (n + 0)%nat with n by lia. exact Hst.
  - simpl. pose proof (counted_step st n f Hst) as Hstep.
    apply IH in Hstep.
    destruct (valid f); simpl.
    + replace (n + S (length (List.filter valid more)))%nat
        with (n + 1 + length (List.filter valid more))%nat by lia.
      exact Hstep.
    + replace (n + 0)%nat with n in Hstep by lia. exact Hstep.
Qed.

End DetectorCounts.

(** X7. The detector never reports more than one fixation for every three
    frames with a gaze point that is not a sentinel, the last fixation
    apart, which needs only one: three times the number of events is at
    most the number of such frames plus two.  In particular a list
    without such a frame gives no event. *)
Theorem fixation_events_need_frames (c : EyeTribeConnection)
    (now0 now1 : Time) (events : list FixateData) :
  GetFixationDataList c now0 now1 = Ok events ->
  (3 * length events <= length (List.filter valid (FrameList c)) + 2)%nat.
Proof.
  unfold GetFixationDataList. intros Hrun.
  destruct (Fixation (CheckConfig c)) as [fixation |]; [| discriminate].
  injection Hrun as <-. unfold fixation_run.
  set (min_msec := min_msec_of fixation).
  set (distance2 := float64_of_int64 _).
  set (st0 := fixation_init min_msec (FrameList c) now0 now1).
  assert (H0 : counted st0 0).
  { destruct (fixation_init_result min_msec (FrameList c) now0 now1) as (Hres & Hcount).
    fold st0 in Hres, Hcount.
    exists 0%nat. rewrite Hres, Hcount. split; [reflexivity | simpl; lia]. }
  destruct (counted_fold distance2 min_msec (FrameList c) st0 0 H0) as (s & Hs & Hn).
  unfold fixation_flush.
  destruct (Z.ltb_spec 0 (fixate_count (fold_left (fixation_step distance2 min_msec)
                                                  (FrameList c) st0)))
    as [Hpos | Hzero]; simpl; [| lia].
  destruct (Time_Sub _ _ <? 0); [| lia].
  rewrite length_app. simpl.
  destruct s as [| s]; [rewrite Hs in Hpos; vm_compute in Hpos; discriminate | lia].
Qed.

(** Five frames in two clusters give two events. *)
Lemma fixation_events_need_frames_witness :
  let events := [ {| FX := 10; FY := 10; FGoTime := 0 |};
                  {| FX := 100; FY := 100; FGoTime := 400 * Millisecond |} ] in
  (3 * length events
   <= length (List.filter valid
                [Sample.frame_at 10 10 0; Sample.frame_at 10 10 200;
                 Sample.frame_at 100 100 400; Sample.frame_at 100 100 600;
                 Sample.frame_at 100 100 800]) + 2)%nat.
Proof.
  intros events.
  apply (fixation_events_need_frames
           (Sample.conn [Sample.frame_at 10 10 0; Sample.frame_at 10 10 200;
                         Sample.frame_at 100 100 400; Sample.frame_at 100 100 600;
                         Sample.frame_at 100 100 800]) 0 0).
  vm_compute. reflexivity.
Defined.

(* ===================================================================== *)
(** * The ingestion task over a run of events                             *)
(* ===================================================================== *)

Lemma pull_loop_app (numFrames : Z) (pre post : list PullEvent) :
  forall c : EyeTribeConnection,
    pull_loop c numFrames (pre ++ post)
    = (r <- pull_loop c numFrames pre ;;
       if fst r then Ok r else pull_loop (snd r) numFrames post).
Proof.
  induction pre as [| ev pre IH]; intros c; [reflexivity |].
  simpl. destruct (pull_iteration c numFrames ev) as [[quit c1] | e | p];
    simpl; try reflexivity.
  destruct quit; [reflexivity | apply IH].
Qed.

(** X8. Once the quit signal has come or a decode has failed, the task
    reads nothing more: whatever follows in the run, the result is that
    of the events before, with the task ended and the frame list as it
    then was. *)
Theorem pull_loop_ends (c : EyeTribeConnection) (numFrames : Z)
    (pre post : list PullEvent) (ev : PullEvent) :
  ends_task ev = true ->
  pull_loop c numFrames (pre ++ ev :: post)
  = (r <- pull_loop c numFrames pre ;; Ok (true, snd r)).
Proof.
  intros Hend. rewrite pull_loop_app.
  destruct (pull_loop c numFrames pre) as [[quit c1] | e | p]; try reflexivity.
  simpl. destruct quit; [reflexivity |].
  destruct ev as [| [msg |] now]; try discriminate Hend; reflexivity.
Qed.

(** A frame, then a failed decode, then another frame. *)
Lemma pull_loop_ends_witness :
  pull_loop (Sample.conn []) 3
    ([Incoming (Some Sample.heartbeat_reply) 5]
       ++ Incoming None 6 :: [Incoming (Some Sample.heartbeat_reply) 7])
  = (r <- pull_loop (Sample.conn []) 3 [Incoming (Some Sample.heartbeat_reply) 5] ;;
     Ok (true, snd r)).
Proof.
  apply (pull_loop_ends (Sample.conn []) 3
           [Incoming (Some Sample.heartbeat_reply) 5]
           [Incoming (Some Sample.heartbeat_reply) 7] (Incoming None 6)).
  reflexivity.
Defined.

(** Over decodes without an error the loop is a run of [AddOneFrame] on
    what [PullOneFrame] returned. *)
Lemma pull_loop_add_frames (numFrames : Z) (events : list PullEvent)
    (frames : list (option Frame)) :
  Forall2 pulls events frames ->
  forall c : EyeTribeConnection,
    pull_loop c numFrames events
    = (c' <- add_frames c frames numFrames ;; Ok (false, c')).
Proof.
  induction 1 as [| ev frame events frames (decoded & now & -> & Hpull) _ IH];
    intros c; [reflexivity |].
  cbn [pull_loop add_frames pull_iteration]. rewrite Hpull.
  unfold AddOneFrame.
  destruct (numFrames <=? Z.of_nat (length (FrameList c))).
  - destruct (FrameList c) as [| oldest rest]; [reflexivity |].
    simpl. apply IH.
  - simpl. apply IH.
Qed.

(** X9. From an empty frame list and with a capacity of at least one, a
    run of decodes without an error leaves the task running and the
    frame list holding the newest [numFrames] of what [PullOneFrame]
    returned, in order, the nil frames of discarded messages taking
    places like any frame. *)
Theorem pull_loop_keeps_newest (c : EyeTribeConnection) (numFrames : Z)
    (events : list PullEvent) (frames : list (option Frame)) :
  1 <= numFrames ->
  FrameList c = [] ->
  Forall2 pulls events frames ->
  exists c',
    pull_loop c numFrames events = Ok (false, c')
    /\ FrameList c' = drop (length frames - Z.to_nat numFrames) frames.
Proof.
  intros Hn Hempty Hpulls.
  destruct (add_frames_keeps_newest numFrames Hn frames c) as (c' & Hrun & Hlist).
  { rewrite Hempty. simpl. lia. }
  exists c'. split.
  - rewrite (pull_loop_add_frames numFrames events frames Hpulls), Hrun. reflexivity.
  - rewrite Hlist, Hempty. reflexivity.
Qed.

(** A heartbeat acknowledgement between two frames, with room for two. *)
Lemma pull_loop_keeps_newest_witness :
  let message (x : float) :=
    {| Category := "tracker"; Request := "get"; StatusCode := 200;
       Values := {[ "frame"%string := Sample.frame_at x x 0 ]} |} in
  let events := [Incoming (Some (message 1%float)) 5;
                 Incoming (Some Sample.heartbeat_reply) 6;
                 Incoming (Some (message 2%float)) 7] in
  let frames := [option_map (fun fr => set_GoTime fr 5) (Sample.frame_at 1 1 0);
                 None;
                 option_map (fun fr => set_GoTime fr 7) (Sample.frame_at 2 2 0)] in
  exists c',
    pull_loop (Sample.conn []) 2 events = Ok (false, c')
    /\ FrameList c' = drop (length frames - Z.to_nat 2) frames.
Proof.
  intros message events frames.
  apply (pull_loop_keeps_newest (Sample.conn []) 2 events frames).
  - lia.
  - reflexivity.
  - repeat constructor; eexists; eexists; (split; [reflexivity | vm_compute; reflexivity]).
Defined.

(** X10. When the frame rate reported by the server is larger than the
    number of milliseconds asked for, the capacity works out to zero and
    the first message that decodes makes the task panic: [AddOneFrame]
    removes the front of an empty list. *)
Theorem StartPullFrameTask_no_capacity (c : EyeTribeConnection) (second : Z)
    (decoded : option OneFrameMessage) (now : Time) (frame : option Frame)
    (more : list PullEvent) :
  0 <= second ->
  second * 1000 < HeartbeatTimeoutMillisecond c <= int64_max ->
  FrameList c = [] ->
  PullOneFrame decoded now = Ok frame ->
  StartPullFrameTask c second true (Incoming decoded now :: more)
  = Panic NilDereference.
Proof.
  intros Hsec Hrate Hempty Hpull.
  unfold StartPullFrameTask. simpl negb. cbv iota.
  destruct (Z.eqb_spec (HeartbeatTimeoutMillisecond c) 0) as [Hz | _]; [lia |].
  unfold int_quot, int_mul.
  rewrite (wrap64_small (second * 1000)) by (unfold int64_min, int64_max in *; lia).
  rewrite Z.quot_small by lia.
  change (wrap64 0) with 0.
  cbn [pull_loop pull_iteration]. rewrite Hpull.
  unfold AddOneFrame. rewrite Hempty. reflexivity.
Qed.

(** Thirty milliseconds of frames from a server that reports the frame
    rate 60. *)
Lemma StartPullFrameTask_no_capacity_witness :
  let c := {| ScreenWidth := 1920; ScreenHeight := 1080;
              HeartbeatTimeoutMillisecond := 60000;
              FrameList := []; HeartbeatTask := None; HeatMapDrawImage := None;
              CheckConfig := {| Fixation := None; TargetList := [] |} |} in
  StartPullFrameTask c 30 true [Incoming (Some Sample.heartbeat_reply) 5]
  = Panic NilDereference.
Proof.
  intros c.
  apply (StartPullFrameTask_no_capacity c 30 (Some Sample.heartbeat_reply) 5 None []).
  - lia.
  - unfold int64_max. simpl. lia.
  - reflexivity.
  - reflexivity.
Defined.

(* ===================================================================== *)
(** * The connection a successful handshake returns                       *)
(* ===================================================================== *)

(** X11. A connection is returned only for an answer with status 200, a
    true [iscalibrated] and four numeric fields with a positive heartbeat
    interval; it holds the truncated screen size and frame rate of the
    answer, an empty frame list, no fixation map and no target, and its
    heartbeat task ticks at half the reported interval (500000 ns for
    each millisecond, as long as the product does not overflow). *)
Theorem CreateServerConnection_connection (net : Network)
    (c : EyeTribeConnection) :
  CreateServerConnection net = Ok c ->
  exists (r : ResponseMessage) (hb w h rate : float),
    response net = Some r
    /\ RStatusCode r = 200
    /\ RValues r !! "iscalibrated"%string = Some (JBool true)
    /\ RValues r !! "heartbeatinterval"%string = Some (JNumber hb)
    /\ RValues r !! "screenresw"%string = Some (JNumber w)
    /\ RValues r !! "screenresh"%string = Some (JNumber h)
    /\ RValues r !! "framerate"%string = Some (JNumber rate)
    /\ 0 < int64_of_float64 hb
    /\ ScreenWidth c = int64_of_float64 w
    /\ ScreenHeight c = int64_of_float64 h
    /\ HeartbeatTimeoutMillisecond c = int64_of_float64 rate
    /\ FrameList c = []
    /\ CheckConfig c = {| Fixation := None; TargetList := [] |}
    /\ HeartbeatTask c
       = Some (int_quot (int_mul (int64_of_float64 hb) Millisecond) 2)
    /\ (int64_of_float64 hb <= 9000000000000 ->
        HeartbeatTask c = Some (int64_of_float64 hb * 500000)).
Proof.
  destruct net as [res dial enc [[cat req code vals] |]];
    unfold CreateServerConnection, GetServerStatus, RequestOne,
      ConvInterfaceToInt64, bind;
    cbn [resolved dialed encoded response RValues RStatusCode];
    destruct res; cbn [negb]; try discriminate;
    destruct dial; cbn [negb]; try discriminate;
    destruct enc; cbn [negb]; try discriminate.
  cbn [RValues RStatusCode].
  destruct (Z.eqb_spec code 200) as [Hcode | _]; cbn [negb]; [| discriminate].
  destruct (vals !! "iscalibrated"%string) as [[| [|] | | | |] |] eqn:Hcal;
    try discriminate;
    (destruct (vals !! "heartbeatinterval"%string) as [[| | hb | | |] |] eqn:Hhb;
     try discriminate);
    (destruct (Z.leb_spec (int64_of_float64 hb) 0) as [_ | Hpos];
     try discriminate);
    (destruct (vals !! "screenresw"%string) as [[| | w | | |] |] eqn:Hw;
     try discriminate);
    (destruct (vals !! "screenresh"%string) as [[| | h | | |] |] eqn:Hh;
     try discriminate);
    (destruct (vals !! "framerate"%string) as [[| | rate | | |] |] eqn:Hrate;
     try discriminate).
  cbn. intros H. injection H as <-.
  exists {| RCategory := cat; RRequest := req; RStatusCode := code; RValues := vals |},
         hb, w, h, rate.
  cbn. repeat split; try assumption; try reflexivity.
  intros Hsmall. f_equal.
  unfold int_quot, int_mul, Millisecond.
  rewrite (wrap64_small (int64_of_float64 hb * 1000000))
    by (unfold int64_min, int64_max; lia).
  replace (int64_of_float64 hb * 1000000) with (int64_of_float64 hb * 500000 * 2) by lia.
  rewrite Z.quot_mul by lia.
  apply wrap64_small. unfold int64_min, int64_max. lia.
Qed.

(** A calibrated server that reports a heartbeat interval of 3000 ms: the
    task ticks every 1500 ms. *)
Lemma CreateServerConnection_connection_witness :
  exists c : EyeTribeConnection,
    CreateServerConnection (Sample.answering (Sample.status_reply (JNumber 3000)))
    = Ok c
    /\ HeartbeatTask c = Some (1500 * Millisecond)
    /\ ScreenWidth c = 1920 /\ ScreenHeight c = 1080
    /\ HeartbeatTimeoutMillisecond c = 30.
Proof.
  destruct (CreateServerConnection
              (Sample.answering (Sample.status_reply (JNumber 3000))))
    as [c | e | p] eqn:Hrun; try (vm_compute in Hrun; discriminate Hrun).
  destruct (CreateServerConnection_connection _ c Hrun)
    as (r & hb & w & h & rate & Hr & _ & _ & Hhb & Hw & Hh & Hrate & _
        & Hsw & Hsh & Hfr & _ & _ & _ & Hhalf).
  injection Hr as <-.
  vm_compute in Hhb, Hw, Hh, Hrate.
  injection Hhb as <-. injection Hw as <-. injection Hh as <-. injection Hrate as <-.
  exists c. split; [reflexivity |].
  rewrite Hsw, Hsh, Hfr, Hhalf by (vm_compute; discriminate).
  vm_compute. repeat split; reflexivity.
Defined.

(* ===================================================================== *)
(** * The heat-map tool                                                   *)
(* ===================================================================== *)

Lemma draw_frames_no_cut_off (img : Image) (maxSecond : Z) (maxTime : Time)
    (frames : list (option Frame)) :
  maxSecond <= 0 ->
  HeatmapTool.draw_frames (Some img) maxSecond maxTime frames
  = Ok (flat_map (heat_map_stamp img) frames).
Proof.
  intros Hmax.
  assert (Hoff : (0 <? maxSecond) = false) by (apply Z.ltb_ge; exact Hmax).
  induction frames as [| f more IH]; [reflexivity |].
  cbn [HeatmapTool.draw_frames flat_map]. unfold heat_map_stamp at 1.
  destruct f as [frame |]; [| exact IH].
  destruct (Avg frame) as [p |]; [| exact IH].
  unfold outlier.
  destruct (fle (X p) 0 && fle (Y p) 0); [exact IH |].
  rewrite Hoff, IH. reflexivity.
Qed.

(** X12. Without a cut-off ([maxSecond] zero or negative), the tool draws
    on a log exactly what the server draws on a frame list with the same
    entries, screen size and brush. *)
Theorem tool_renders_as_server (allocates : Rectangle -> bool)
    (c : EyeTribeConnection) (img : Image)
    (log : HeatmapTool.OneWebPageTrackLog) (maxSecond startUnixTime : Z)
    (png : option Image) :
  maxSecond <= 0 ->
  HeatMapDrawImage c = Some img ->
  HeatmapTool.CreateHeatMapImage allocates (Some img) log
    (ScreenWidth c) (ScreenHeight c) maxSecond startUnixTime
  = fst (CreateHeatMapImage allocates
           (set_FrameList c (HeatmapTool.FrameArray log)) png).
Proof.
  intros Hmax Himg.
  unfold HeatmapTool.CreateHeatMapImage, CreateHeatMapImage, image_NewRGBA,
    LoadHeatMapDrawImage.
  simpl. destruct (allocates _); [| reflexivity].
  simpl. rewrite (draw_frames_no_cut_off img maxSecond _ _ Hmax).
  rewrite Himg. reflexivity.
Qed.

(** The whole of a page, as [main] asks for it first ([maxSecond] -1). *)
Lemma tool_renders_as_server_witness :
  let frames := [Sample.frame_at 10 10 900; None; Sample.frame_at 0 0 3;
                 Sample.frame_at 100 100 950] in
  HeatmapTool.CreateHeatMapImage (fun _ => true)
    (Some (PngImage "heatmap_brush.png"))
    {| HeatmapTool.FrameArray := frames; HeatmapTool.Url := "/";
       HeatmapTool.UnixTime := 0; HeatmapTool.ImageFileNameList := [] |}
    1920 1080 (-1) 0
  = fst (CreateHeatMapImage (fun _ => true) (Sample.conn frames) None).
Proof.
  intros frames.
  apply (tool_renders_as_server (fun _ => true) (Sample.conn [])
           (PngImage "heatmap_brush.png")
           {| HeatmapTool.FrameArray := frames; HeatmapTool.Url := "/";
              HeatmapTool.UnixTime := 0; HeatmapTool.ImageFileNameList := [] |}
           (-1) 0 None).
  - lia.
  - reflexivity.
Defined.

Lemma draw_frames_all_later (img : option Image) (maxSecond : Z) (maxTime : Time)
    (frames : list (option Frame)) :
  Forall (fun t => maxTime < t) (arrival_times frames) ->
  HeatmapTool.draw_frames img maxSecond maxTime
    (List.filter (not_later maxTime) frames) = Ok [].
Proof.
  induction frames as [| f more IH]; intros Hlater; [reflexivity |].
  unfold arrival_times in Hlater. simpl in Hlater.
  apply Forall_app in Hlater as [Hf Hmore]. fold (arrival_times more) in Hmore.
  simpl. destruct f as [frame |]; simpl.
  - apply Forall_cons in Hf as [Hf _].
    destruct (Z.leb_spec (GoTime frame) maxTime); [lia | auto].
  - auto.
Qed.

Lemma draw_frames_cut_off (img : option Image) (maxSecond : Z) (maxTime : Time)
    (frames : list (option Frame)) :
  0 < maxSecond ->
  StronglySorted Z.le (arrival_times frames) ->
  HeatmapTool.draw_frames img maxSecond maxTime frames
  = HeatmapTool.draw_frames img (-1) maxTime
      (List.filter (not_later maxTime) frames).
Proof.
  intros Hmax.
  assert (Hon : (0 <? maxSecond) = true) by (apply Z.ltb_lt; exact Hmax).
  induction frames as [| f more IH]; intros Hsorted; [reflexivity |].
  unfold arrival_times in Hsorted. simpl in Hsorted.
  fold (arrival_times more) in Hsorted.
  destruct f as [frame |]; simpl in Hsorted.
  - apply StronglySorted_cons in Hsorted as [Hfrom Hsorted].
    specialize (IH Hsorted).
    cbn [List.filter not_later].
    destruct (Z.leb_spec (GoTime frame) maxTime) as [Hle | Hgt];
      cbn [HeatmapTool.draw_frames];
      destruct (Avg frame) as [p |]; try exact IH;
      destruct (fle (X p) 0 && fle (Y p) 0); try exact IH;
      rewrite Hon, Time_Sub_neg; cbn [andb].
    + destruct (Z.ltb_spec maxTime (GoTime frame)); [lia |].
      change (0 <? -1) with false. cbn [andb].
      destruct img; [| reflexivity]. rewrite IH. reflexivity.
    + destruct (Z.ltb_spec maxTime (GoTime frame)); [| lia].
      symmetry. apply draw_frames_all_later.
      eapply Forall_impl; [exact Hfrom |]. simpl. intros t Ht. lia.
  - cbn [List.filter not_later HeatmapTool.draw_frames]. apply IH. exact Hsorted.
Qed.

(** X13. With a cut-off of [maxSecond > 0] seconds after the page's start
    and a log whose frames are in the order of their arrival, the tool
    draws exactly what it draws without a cut-off on the log's frames
    that arrived no later than the cut-off time, which is
    [time.Unix(startUnixTime + maxSecond, 0)] with the wrap-around of the
    sum and of the seconds [time.Unix] counts from the year 1. *)
Theorem tool_cut_off (allocates : Rectangle -> bool) (img : option Image)
    (log : HeatmapTool.OneWebPageTrackLog) (ScreenWidth ScreenHeight : Z)
    (maxSecond startUnixTime : Z) :
  0 < maxSecond ->
  StronglySorted Z.le (arrival_times (HeatmapTool.FrameArray log)) ->
  let maxTime := HeatmapTool.time_Unix (wrap64 (startUnixTime + maxSecond)) in
  HeatmapTool.CreateHeatMapImage allocates img log ScreenWidth ScreenHeight
    maxSecond startUnixTime
  = HeatmapTool.CreateHeatMapImage allocates img
      {| HeatmapTool.FrameArray :=
           List.filter (not_later maxTime) (HeatmapTool.FrameArray log);
         HeatmapTool.Url := HeatmapTool.Url log;
         HeatmapTool.UnixTime := HeatmapTool.UnixTime log;
         HeatmapTool.ImageFileNameList := HeatmapTool.ImageFileNameList log |}
      ScreenWidth ScreenHeight (-1) startUnixTime.
Proof.
  intros Hmax Hsorted maxTime.
  unfold HeatmapTool.CreateHeatMapImage, image_NewRGBA.
  cbn [HeatmapTool.FrameArray].
  destruct (allocates _); [| reflexivity]. cbn [bind].
  fold maxTime.
  rewrite (draw_frames_cut_off img maxSecond maxTime _ Hmax Hsorted).
  assert (Hany : forall t l,
             HeatmapTool.draw_frames img (-1) t l
             = HeatmapTool.draw_frames img (-1) maxTime l).
  { intros t l. induction l as [| f more IH]; [reflexivity |].
    cbn [HeatmapTool.draw_frames].
    destruct f as [frame |]; [| exact IH].
    destruct (Avg frame) as [p |]; [| exact IH].
    destruct (fle (X p) 0 && fle (Y p) 0); [exact IH |].
    change (0 <? -1) with false. cbn [andb]. destruct img; [| reflexivity].
    rewrite IH. reflexivity. }
  rewrite (Hany (HeatmapTool.time_Unix (wrap64 (startUnixTime + -1)))).
  reflexivity.
Qed.

(** A page opened at second 0 with frames at 1 s, 4 s and 7 s, cut off
    after 5 s. *)
Lemma tool_cut_off_witness :
  let log := {| HeatmapTool.FrameArray :=
                  [Sample.frame_at 10 10 1000; Sample.frame_at 20 20 4000;
                   Sample.frame_at 30 30 7000];
                HeatmapTool.Url := "/"; HeatmapTool.UnixTime := 0;
                HeatmapTool.ImageFileNameList := [] |} in
  HeatmapTool.CreateHeatMapImage (fun _ => true)
    (Some (PngImage "heatmap_brush.png")) log 1920 1080 5 0
  = HeatmapTool.CreateHeatMapImage (fun _ => true)
      (Some (PngImage "heatmap_brush.png"))
      {| HeatmapTool.FrameArray :=
           [Sample.frame_at 10 10 1000; Sample.frame_at 20 20 4000];
         HeatmapTool.Url := "/"; HeatmapTool.UnixTime := 0;
         HeatmapTool.ImageFileNameList := [] |}
      1920 1080 (-1) 0.
Proof.
  intros log.
  apply (tool_cut_off (fun _ => true) (Some (PngImage "heatmap_brush.png"))
           log 1920 1080 5 0).
  - lia.
  - simpl. unfold Millisecond. repeat constructor; lia.
Defined.

(** A start time near the top of the int64 range: the seconds of the
    cut-off time, counted from the year 1, wrap around, the cut-off lies
    far in the past and no frame is drawn. *)
Lemma tool_cut_off_wraps_around :
  let log := {| HeatmapTool.FrameArray :=
                  [Sample.frame_at 10 10 1000; Sample.frame_at 20 20 4000];
                HeatmapTool.Url := "/"; HeatmapTool.UnixTime := 0;
                HeatmapTool.ImageFileNameList := [] |} in
  HeatmapTool.CreateHeatMapImage (fun _ => true)
    (Some (PngImage "heatmap_brush.png")) log 1920 1080 5 9223372036854775000
  = Ok {| Bounds := image_Rect 0 0 1920 1080;
          Drawn := [ClearTransparent (image_Rect 0 0 1920 1080)] |}.
Proof.
  vm_compute. reflexivity.
Qed.

Lemma read_lines_pages (lines : list HeatmapTool.LogLine) :
  forall (all_log : list HeatmapTool.OneWebPageTrackLog)
         (current_log : HeatmapTool.OneWebPageTrackLog),
    match HeatmapTool.read_lines lines all_log current_log with
    | None => existsb aborts lines = true
    | Some pages =>
        existsb aborts lines = false
        /\ concat (map HeatmapTool.FrameArray pages)
           = concat (map HeatmapTool.FrameArray all_log)
             ++ HeatmapTool.FrameArray current_log
             ++ flat_map line_frames lines
        /\ map HeatmapTool.Url pages
           = map HeatmapTool.Url all_log
             ++ HeatmapTool.Url current_log
                :: map HeatmapTool.RPath (flat_map line_requests lines)
        /\ map HeatmapTool.UnixTime pages
           = map HeatmapTool.UnixTime all_log
             ++ HeatmapTool.UnixTime current_log
                :: map HeatmapTool.RUnixTime (flat_map line_requests lines)
    end.
Proof.
  induction lines as [| line more IH]; intros all_log current_log.
  - simpl. rewrite !map_app, concat_app. simpl. rewrite !app_nil_r.
    repeat split; reflexivity.
  - destruct line as [[requestPath |] | [msg |]]; simpl.
    + specialize (IH (all_log ++ [current_log])
                     (HeatmapTool.new_page (HeatmapTool.RPath requestPath)
                                           (HeatmapTool.RUnixTime requestPath))).
      destruct (HeatmapTool.read_lines more _ _) as [pages |]; [| exact IH].
      destruct IH as (Hab & Hframes & Hurl & Htime).
      rewrite Hframes, Hurl, Htime, !map_app, concat_app. simpl.
      rewrite !app_nil_r, <- !app_assoc. repeat split; try reflexivity; assumption.
    + apply IH.
    + destruct (Values msg !! "frame"%string) as [frame |]; [| reflexivity].
      specialize (IH all_log (HeatmapTool.add_frame current_log frame)).
      destruct (HeatmapTool.read_lines more _ _) as [pages |]; [| exact IH].
      destruct IH as (Hab & Hframes & Hurl & Htime).
      rewrite Hframes, Hurl, Htime. simpl. rewrite <- !app_assoc.
      repeat split; try reflexivity; assumption.
    + apply IH.
Qed.

(** X14. Reading a log, [main] gives up exactly when some line decodes
    as a frame message without a frame.  Otherwise it ends with one page
    for the lines before the first page request, under the name UNKNOWN
    URL and the time 0, and one page for every page request that decodes,
    in order, under its path and time; the frames of all the pages, taken
    together in order, are the frames of the lines that decode, none lost
    and none moved. *)
Theorem read_log_pages (lines : list HeatmapTool.LogLine) :
  match HeatmapTool.read_log lines with
  | None => existsb aborts lines = true
  | Some pages =>
      existsb aborts lines = false
      /\ concat (map HeatmapTool.FrameArray pages) = flat_map line_frames lines
      /\ map HeatmapTool.Url pages
         = "UNKNOWN URL"%string
           :: map HeatmapTool.RPath (flat_map line_requests lines)
      /\ map HeatmapTool.UnixTime pages
         = 0 :: map HeatmapTool.RUnixTime (flat_map line_requests lines)
  end.
Proof.
  unfold HeatmapTool.read_log.
  pose proof (read_lines_pages lines [] (HeatmapTool.new_page "UNKNOWN URL" 0)) as H.
  destruct (HeatmapTool.read_lines lines _ _) as [pages |]; exact H.
Qed.

(* ===================================================================== *)
(** * The server's renderer and the entries without a valid gaze          *)
(* ===================================================================== *)

Lemma heat_map_stamp_valid (drawImage : Image) (f : option Frame) :
  (valid f = false /\ heat_map_stamp drawImage f = [])
  \/ (valid f = true /\ exists r, heat_map_stamp drawImage f = [StampOver r drawImage]).
Proof.
  unfold valid, passed_over, no_gaze, sentinel, heat_map_stamp.
  destruct f as [frame |]; [| left; split; reflexivity].
  destruct (Avg frame) as [p |]; [| left; split; reflexivity].
  cbn [orb]. destruct (outlier p); [left; split; reflexivity |].
  right. split; [reflexivity |]. eexists. reflexivity.
Qed.

Lemma heat_map_stamp_count (drawImage : Image) (frames : list (option Frame)) :
  stamps {| Bounds := image_Rect 0 0 0 0;
            Drawn := flat_map (heat_map_stamp drawImage) frames |}
  = flat_map (heat_map_stamp drawImage) frames
  /\ length (flat_map (heat_map_stamp drawImage) frames)
     = length (List.filter valid frames).
Proof.
  unfold stamps. cbn [Drawn].
  induction frames as [| f more [IHs IHl]]; [split; reflexivity |].
  cbn [flat_map List.filter].
  destruct (heat_map_stamp_valid drawImage f) as [(-> & ->) | (-> & r & ->)].
  - split; assumption.
  - cbn [app List.filter length]. rewrite IHs, IHl. split; reflexivity.
Qed.

(** X15. The server's renderer panics exactly when the library refuses
    the canvas of the screen's size, and returns an error exactly when the
    canvas is granted, no brush is kept in the connection and the brush
    file cannot be loaded; in both cases the connection is left as it
    was.  Otherwise the canvas has the bounds of the screen, is cleared
    first, and then gets exactly one stamp of the brush for every frame
    with a gaze point that is not a sentinel, and no other drawing; the
    brush is the one kept in the connection when there is one, else the
    one from the file, and it is kept in the connection afterwards. *)
Theorem CreateHeatMapImage_stamps (allocates : Rectangle -> bool)
    (c : EyeTribeConnection) (png : option Image) :
  let bounds := image_Rect 0 0 (ScreenWidth c) (ScreenHeight c) in
  let brush :=
    match HeatMapDrawImage c with Some kept => Some kept | None => png end in
  match CreateHeatMapImage allocates c png with
  | (Panic p, c') => allocates bounds = false /\ p = CanvasRefused /\ c' = c
  | (Err e, c') =>
      allocates bounds = true /\ e = ErrBrush /\ brush = None /\ c' = c
  | (Ok img, c') =>
      allocates bounds = true
      /\ (exists b,
            brush = Some b
            /\ Forall (fun op => exists r, op = StampOver r b) (stamps img)
            /\ c' = set_HeatMapDrawImage c (Some b))
      /\ Bounds img = bounds
      /\ Drawn img = ClearTransparent bounds :: stamps img
      /\ length (stamps img) = length (List.filter valid (FrameList c))
  end.
Proof.
  intros bounds brush. subst brush.
  assert (Hok : forall b,
            let img := {| Bounds := bounds;
                          Drawn := ClearTransparent bounds
                                   :: flat_map (heat_map_stamp b) (FrameList c) |} in
            Forall (fun op => exists r, op = StampOver r b) (stamps img)
            /\ Drawn img = ClearTransparent bounds :: stamps img
            /\ length (stamps img) = length (List.filter valid (FrameList c))).
  { intros b img.
    destruct (heat_map_stamp_count b (FrameList c)) as (Hs & Hl).
    assert (Hstamps : stamps img = flat_map (heat_map_stamp b) (FrameList c)).
    { exact Hs. }
    rewrite Hstamps. repeat split; try reflexivity; try exact Hl.
    apply Forall_forall. intros op Hop. apply list_elem_of_In in Hop.
    apply in_flat_map in Hop as (f & _ & Hop).
    unfold heat_map_stamp in Hop.
    destruct f as [frame |]; [| destruct Hop].
    destruct (Avg frame) as [p |]; [| destruct Hop].
    destruct (outlier p); [destruct Hop |].
    destruct Hop as [<- | []]. eexists. reflexivity. }
  unfold CreateHeatMapImage, image_NewRGBA, LoadHeatMapDrawImage.
  fold bounds.
  destruct (allocates bounds); [| auto].
  destruct (HeatMapDrawImage c) as [kept |] eqn:Hkept;
    [| destruct png as [img |]]; cbn [bind set_HeatMapDrawImage FrameList].
  - destruct (Hok kept) as (H1 & H2 & H3).
    repeat split; try assumption.
    exists kept. repeat split; try assumption.
    destruct c. simpl in *. rewrite Hkept. reflexivity.
  - destruct (Hok img) as (H1 & H2 & H3).
    repeat split; try assumption.
    exists img. repeat split; assumption || reflexivity.
  - auto.
Qed.

(** After a render that read the brush from its file, the next render
    uses that brush, whatever has become of the file. *)
Lemma CreateHeatMapImage_keeps_brush (allocates : Rectangle -> bool)
    (c c' : EyeTribeConnection) (img : RGBA) (brush : Image)
    (png' : option Image) :
  HeatMapDrawImage c = None ->
  CreateHeatMapImage allocates c (Some brush) = (Ok img, c') ->
  CreateHeatMapImage allocates c' png' = (Ok img, c').
Proof.
  unfold CreateHeatMapImage, image_NewRGBA, LoadHeatMapDrawImage.
  intros Hnone. rewrite Hnone.
  destruct (allocates (image_Rect 0 0 (ScreenWidth c) (ScreenHeight c))) eqn:Hcanvas;
    [| discriminate].
  cbn [bind]. intros H. injection H as <- <-.
  cbn [set_HeatMapDrawImage ScreenWidth ScreenHeight HeatMapDrawImage FrameList bind].
  rewrite Hcanvas. reflexivity.
Qed.

(** X16. Entries that are nil, have no [Avg] or are sentinels can be
    taken out of the frame list without changing what the renderer draws
    and what the raw region check answers; taken out anywhere after the
    front of the list, they change neither what the detector finds nor
    what the region check on fixations answers. *)
Theorem passed_over_entries_do_not_count (allocates : Rectangle -> bool)
    (c : EyeTribeConnection)
    (front : option Frame) (rest : list (option Frame))
    (png : option Image) (millisecond : option Z) (now now0 now1 : Time) :
  fst (CreateHeatMapImage allocates
         (set_FrameList c (List.filter valid (front :: rest))) png)
  = fst (CreateHeatMapImage allocates (set_FrameList c (front :: rest)) png)
  /\ ServeEyeTrackCheck (set_FrameList c (List.filter valid (front :: rest)))
       millisecond now
     = ServeEyeTrackCheck (set_FrameList c (front :: rest)) millisecond now
  /\ GetFixationDataList (set_FrameList c (front :: List.filter valid rest)) now0 now1
     = GetFixationDataList (set_FrameList c (front :: rest)) now0 now1
  /\ ServeEyeTrackCheckFixation (set_FrameList c (front :: List.filter valid rest))
       millisecond now now0 now1
     = ServeEyeTrackCheckFixation (set_FrameList c (front :: rest))
         millisecond now now0 now1.
Proof.
  repeat split.
  - apply (CreateHeatMapImage_without passed_over (fun f H => H) allocates).
  - apply (ServeEyeTrackCheck_without passed_over (fun f H => H)).
  - apply (GetFixationDataList_without passed_over (fun f H => H)).
  - apply (ServeEyeTrackCheckFixation_without passed_over (fun f H => H)).
Qed.
